(** * Pinger: the ICMP Echo packet model of [Pinger.py]

    A shallow embedding of [ICMP_Echo] (RFC 792 layout, RFC 1071 checksum),
    of [ICMP_Echo.sendto] and of [ping], together with the properties the
    specification states about them.

    Python integers are unbounded, so they are [Z]; [bytes] objects are
    [list byte]; the floats returned by [time.perf_counter] are binary64
    floats.  A Python call that can raise returns a [result]. *)

From Stdlib Require Import Strings.String.
From Stdlib Require Import Strings.Ascii.
From Stdlib Require DecimalString.
From Stdlib Require Import ZArith List Bool Lia.
From Stdlib Require Import Strings.Byte.
From Stdlib Require Import Floats.PrimFloat.
Import ListNotations.

Local Open Scope Z_scope.

(** ** Exceptions *)

(** The exceptions that the modelled code can raise:
    [struct.error] from [struct.pack] / [struct.unpack],
    [ValueError] from [ICMP_Echo_Type(v)],
    [IndexError] from subscripting a [bytes] object,
    [OSError] from the socket calls (the class and its subclasses other
    than the timeouts, [ConnectionRefusedError] for one),
    [TypeError] and [UnicodeError] from [sock.connect] on a host name that
    is no valid argument (a NUL inside, a label that does not encode). *)
Inductive exn : Type :=
  | StructError
  | ValueError
  | IndexError
  | OSError
  | TypeError
  | UnicodeError.

Inductive result (A : Type) : Type :=
  | Ok (a : A)
  | Raise (e : exn).

Arguments Ok {A} a.
Arguments Raise {A} e.

Definition bind {A B : Type} (r : result A) (k : A -> result B) : result B :=
  match r with
  | Ok a => k a
  | Raise e => Raise e
  end.

Notation "x <- r ;; k" := (bind r (fun x => k))
  (at level 61, r at next level, right associativity).

(** ** Bytes *)

Definition bytes := list byte.

Definition Z_of_byte (b : byte) : Z := Z.of_N (Byte.to_N b).

Definition byte_of_Z (z : Z) : byte :=
  match Byte.of_N (Z.to_N (z mod 256)) with
  | Some b => b
  | None => x00
  end.

(** ** [struct.pack] and [struct.unpack] for the format ["!BBHHH<n>s"] *)

(** ['B']: one unsigned byte; [struct.error] unless [0 <= v <= 255]. *)
Definition pack_B (v : Z) : result bytes :=
  if (0 <=? v) && (v <=? 255) then Ok [byte_of_Z v] else Raise StructError.

(** ['H'] after ['!']: two bytes, most significant first; [struct.error]
    unless [0 <= v <= 65535]. *)
Definition pack_H (v : Z) : result bytes :=
  if (0 <=? v) && (v <=? 65535)
  then Ok [byte_of_Z (Z.shiftr v 8); byte_of_Z (Z.land v 255)]
  else Raise StructError.

(** [struct.pack(f"!BBHHH{len(data)}s", t, c, ck, ident, sq, data)]: the count
    of the ['s'] item is the length of [data], so [data] is copied whole. *)
Definition pack_BBHHHs (t c ck ident sq : Z) (data : bytes) : result bytes :=
  b0 <- pack_B t ;;
  b1 <- pack_B c ;;
  b2 <- pack_H ck ;;
  b3 <- pack_H ident ;;
  b4 <- pack_H sq ;;
  Ok (b0 ++ b1 ++ b2 ++ b3 ++ b4 ++ data).

Definition unpack_H (hi lo : byte) : Z := Z.shiftl (Z_of_byte hi) 8 + Z_of_byte lo.

(** [struct.unpack("!BBHHH", buf)]: [struct.error] unless [buf] has exactly
    eight bytes. *)
Definition unpack_BBHHH (buf : bytes) : result (Z * Z * Z * Z * Z) :=
  match buf with
  | [b0; b1; b2; b3; b4; b5; b6; b7] =>
      Ok (Z_of_byte b0, Z_of_byte b1, unpack_H b2 b3, unpack_H b4 b5, unpack_H b6 b7)
  | _ => Raise StructError
  end.

(** ** The packet model *)

Inductive ICMP_Echo_Type : Type :=
  | ECHO
  | REPLY.

Definition value (t : ICMP_Echo_Type) : Z :=
  match t with
  | ECHO => 8
  | REPLY => 0
  end.

(** [ICMP_Echo_Type(v)]: look an enumeration member up by value. *)
Definition ICMP_Echo_Type_of (v : Z) : result ICMP_Echo_Type :=
  if v =? 8 then Ok ECHO
  else if v =? 0 then Ok REPLY
  else Raise ValueError.

(** A Python number as [sendto] and [ping] handle it: the [int] [-1] or the
    [float] difference of two clock readings. *)
Inductive number : Type :=
  | PyInt (z : Z)
  | PyFloat (f : float).

Record ICMP_Echo : Type := mkICMP_Echo {
  icmp_type : ICMP_Echo_Type;
  code : Z;
  checksum : Z;
  identifier : Z;
  sequence : Z;
  data : bytes;
  response_time : number
}.

Definition with_checksum (self : ICMP_Echo) (ck : Z) : ICMP_Echo :=
  mkICMP_Echo (icmp_type self) (code self) ck (identifier self)
              (sequence self) (data self) (response_time self).

Definition with_response_time (self : ICMP_Echo) (t : number) : ICMP_Echo :=
  mkICMP_Echo (icmp_type self) (code self) (checksum self) (identifier self)
              (sequence self) (data self) t.

(** The summation loop of [calculate_checksum]:
    [for i in range(0, len(payload), 2): s += (payload[i] << 8) + payload[i+1]].
    On a buffer of odd length the last [payload[i+1]] is out of range. *)
Fixpoint sum_words (s : Z) (payload : bytes) : result Z :=
  match payload with
  | [] => Ok s
  | a :: b :: rest => sum_words (s + (Z.shiftl (Z_of_byte a) 8 + Z_of_byte b)) rest
  | [_] => Raise IndexError
  end.

Definition pad_even (payload : bytes) : bytes :=
  if (Z.of_nat (length payload) mod 2 =? 1) then payload ++ [x00] else payload.

Definition calculate_checksum (self : ICMP_Echo) : result Z :=
  payload <- pack_BBHHHs (value (icmp_type self)) (code self) 0
                         (identifier self) (sequence self) (data self) ;;
  let payload := pad_even payload in
  s <- sum_words 0 payload ;;
  let s := Z.shiftr s 16 + Z.land s 0xFFFF in
  let s := s + Z.shiftr s 16 in
  Ok (Z.land (Z.lnot s) 0xFFFF).

Definition check_checksum (self : ICMP_Echo) : result bool :=
  c <- calculate_checksum self ;;
  Ok (checksum self =? c).

(** Methods that assign to [self] return the outcome of the call together with
    the object as the call leaves it; an exception leaves it as it was when
    the exception was raised. *)
Definition set_checksum (override : option Z) (self : ICMP_Echo)
  : result unit * ICMP_Echo :=
  match override with
  | Some v => (Ok tt, with_checksum self v)
  | None =>
      match calculate_checksum self with
      | Ok c => (Ok tt, with_checksum self c)
      | Raise e => (Raise e, self)
      end
  end.

(** [ICMP_Echo(icmp_type, code, identifier, sequence, data)]: when
    [set_checksum] raises inside [__init__], no object is returned. *)
Definition construct (t : ICMP_Echo_Type) (c ident sq : Z) (d : bytes)
  : result ICMP_Echo :=
  let self := mkICMP_Echo t c 0 ident sq d (PyInt (-1)) in
  match set_checksum None self with
  | (Ok _, self') => Ok self'
  | (Raise e, _) => Raise e
  end.

(** [bytes(self)] *)
Definition to_bytes (self : ICMP_Echo) : result bytes * ICMP_Echo :=
  match set_checksum None self with
  | (Ok _, self') =>
      (pack_BBHHHs (value (icmp_type self')) (code self') (checksum self')
                   (identifier self') (sequence self') (data self'), self')
  | (Raise e, self') => (Raise e, self')
  end.

(** [ICMP_Echo.from_bytes(packet)]; [packet[:8]] is [firstn 8 packet] and
    [packet[8:]] is [skipn 8 packet].  The unpacked [checksum] is bound and
    not used. *)
Definition from_bytes (packet : bytes) : result ICMP_Echo :=
  fields <- unpack_BBHHH (firstn 8 packet) ;;
  let '(type_val, c, _checksum, ident, sq) := fields in
  let d := skipn 8 packet in
  t <- ICMP_Echo_Type_of type_val ;;
  construct t c ident sq d.

Definition default_data : bytes :=
  [ x61; x62; x63; x64; x65; x66; x67; x68; x69; x6a; x6b; x6c; x6d; x6e; x6f; x70;
    x71; x72; x73; x74; x75; x76; x77; x61; x62; x63; x64; x65; x66; x67; x68; x69 ]%byte.

(** The fields that [struct.pack] range-checks. *)
Definition fields_fit (c ident sq : Z) : bool :=
  ((0 <=? c) && (c <=? 255)) &&
  ((0 <=? ident) && (ident <=? 65535)) &&
  ((0 <=? sq) && (sq <=? 65535)).

Definition well_formed (self : ICMP_Echo) : bool :=
  fields_fit (code self) (identifier self) (sequence self).

(** The layout written by [struct.pack] when every argument is in range. *)
Definition layout (t : ICMP_Echo_Type) (c ck ident sq : Z) (d : bytes) : bytes :=
  byte_of_Z (value t) :: byte_of_Z c
    :: byte_of_Z (Z.shiftr ck 8) :: byte_of_Z (Z.land ck 255)
    :: byte_of_Z (Z.shiftr ident 8) :: byte_of_Z (Z.land ident 255)
    :: byte_of_Z (Z.shiftr sq 8) :: byte_of_Z (Z.land sq 255)
    :: d.

(** ** The echo session

    [sendto] talks to the operating system: it opens a raw socket, connects,
    reads the clock, sends, receives and reads the clock again.  What the
    operating system answers is an input of the model ([network]); what
    [sendto] asks of it, in order, is an output (the list of [event]s). *)

Inductive connect_outcome : Type :=
  | ConnectOk
  | ConnectGaierror            (* [socket.gaierror]: the name does not resolve *)
  | ConnectOSError             (* any other [OSError] of [sock.connect] *)
  | ConnectRaises (e : exn).   (* [sock.connect] raises [e] *)

Inductive recv_outcome : Type :=
  | Received (buf : bytes)
  | RecvTimeoutError           (* [TimeoutError] after the 4 s of [settimeout] *)
  | RecvSocketTimeout          (* [socket.timeout] *)
  | RecvRaises (e : exn).      (* [sock.recv] raises [e], no timeout *)

(** [except OSError]: the classes of [exn] that the clause catches. *)
Definition is_OSError (e : exn) : bool :=
  match e with
  | OSError => true
  | _ => false
  end.

Record network : Type := mkNetwork {
  socket_opens : bool;              (* [socket.socket(...)] returns a socket *)
  connect_result : connect_outcome;
  send_accepts : bool;              (* [sock.send] returns *)
  recv_result : recv_outcome;
  t1_reading : float;               (* first [time.perf_counter()] *)
  t2_reading : float                (* second [time.perf_counter()] *)
}.

Inductive event : Type :=
  | EvWarning (t : ICMP_Echo_Type)
  | EvSocket
  | EvSetTimeout (seconds : Z)
  | EvConnect (dest : String.string) (port : Z)
  | EvPerfCounter (reading : float)
  | EvSend (payload : bytes)
  | EvRecv (bufsize : Z).

(** [self.sendto(dest)]: the outcome ([None] is [Ok None]), [self] as the call
    leaves it, and the calls made.  The [try] around [sock.connect] catches
    [socket.gaierror] and [OSError] and lets every other exception through;
    the [try] around [sock.recv] catches the two timeouts only, and no class
    of [exn] is one of them. *)
Definition sendto (net : network) (self : ICMP_Echo) (dest : String.string)
  : result (option ICMP_Echo) * ICMP_Echo * list event :=
  let warn := match icmp_type self with
              | ECHO => []
              | t => [EvWarning t]
              end in
  if negb (socket_opens net) then (Raise OSError, self, warn ++ [EvSocket]) else
  let opened := warn ++ [EvSocket; EvSetTimeout 4; EvConnect dest 0] in
  match connect_result net with
  | ConnectGaierror => (Ok None, self, opened)
  | ConnectOSError => (Ok None, self, opened)
  | ConnectRaises e =>
      if is_OSError e then (Ok None, self, opened) else (Raise e, self, opened)
  | ConnectOk =>
      match to_bytes self with
      | (Raise e, self') => (Raise e, self', opened)
      | (Ok icmp_payload, self') =>
          let t1 := t1_reading net in
          let sent := opened ++ [EvPerfCounter t1; EvSend icmp_payload] in
          if negb (send_accepts net) then (Raise OSError, self', sent) else
          match recv_result net with
          | RecvTimeoutError => (Ok None, self', sent ++ [EvRecv (2 ^ 16)])
          | RecvSocketTimeout => (Ok None, self', sent ++ [EvRecv (2 ^ 16)])
          | RecvRaises e => (Raise e, self', sent ++ [EvRecv (2 ^ 16)])
          | Received received =>
              let t2 := t2_reading net in
              let timed := sent ++ [EvRecv (2 ^ 16); EvPerfCounter t2] in
              let received := skipn 20 received in
              match from_bytes received with
              | Raise e => (Raise e, self', timed)
              | Ok response =>
                  (Ok (Some (with_response_time response (PyFloat (PrimFloat.sub t2 t1)))),
                   self', timed)
              end
          end
      end
  end.

(** [ping(target)] *)
Definition ping (net : network) (target : String.string)
  : result number * list event :=
  match construct ECHO 0 1 1 default_data with
  | Raise e => (Raise e, [])
  | Ok Echo =>
      match sendto net Echo target with
      | (Raise e, _, calls) => (Raise e, calls)
      | (Ok (Some response), _, calls) => (Ok (response_time response), calls)
      | (Ok None, _, calls) => (Ok (PyInt (-1)), calls)
      end
  end.

(** The network-level non-responses: the name does not resolve, the
    connection fails, or the request is sent and no reply arrives in time. *)
Definition no_response (net : network) : bool :=
  match connect_result net with
  | ConnectGaierror | ConnectOSError => true
  | ConnectRaises e => is_OSError e
  | ConnectOk =>
      send_accepts net &&
      match recv_result net with
      | RecvTimeoutError | RecvSocketTimeout => true
      | RecvRaises _ => false
      | Received _ => false
      end
  end.

(** A host that answers no echo request: the connection succeeds, the
    request is sent, and [sock.recv] raises [ConnectionRefusedError]. *)
Definition refusing_host : network :=
  mkNetwork true ConnectOk true (RecvRaises OSError) 1.5%float 5.5%float.

(** A router answers for an unreachable host: the datagram received is a
    20-byte IP header followed by an ICMP message of type 3 (destination
    unreachable), code 1. *)
Definition unreachable_host : network :=
  mkNetwork true ConnectOk true
    (Received (repeat x00 20 ++ [x03; x01; xfc; xfe; x00; x00; x00; x00]
                 ++ repeat x00 28))
    1.5%float 1.75%float.

(** The specification's [MalformedPacketError]: the two exceptions through
    which [from_bytes] rejects a packet, [struct.error] from [struct.unpack]
    and [ValueError] from the enumeration lookup. *)
Definition MalformedPacketError (e : exn) : bool :=
  match e with
  | StructError | ValueError => true
  | _ => false
  end.

Definition known_type (packet : bytes) : bool :=
  match packet with
  | b :: _ => (Z_of_byte b =? 8) || (Z_of_byte b =? 0)
  | [] => false
  end.

(** ** RFC 1071 as the specification words it

    These definitions follow the specification's description of the
    algorithm, not the code; [calculate_checksum] is compared with them. *)

(** The 16-bit big-endian words of a buffer; a last lone byte is the high
    byte of a word whose low byte is the logical zero pad. *)
Fixpoint be_words (bs : bytes) : list Z :=
  match bs with
  | [] => []
  | [hi] => [256 * Z_of_byte hi + 0]
  | hi :: lo :: rest => (256 * Z_of_byte hi + Z_of_byte lo) :: be_words rest
  end.

Definition word_sum (bs : bytes) : Z := fold_right Z.add 0 (be_words bs).

(** Add the upper bits of the running sum into its lower 16 bits, again and
    again until no carry remains. *)
Fixpoint fold_carries (fuel : nat) (s : Z) : Z :=
  match fuel with
  | O => s
  | S fuel' => if s <? 2 ^ 16 then s else fold_carries fuel' (s / 2 ^ 16 + s mod 2 ^ 16)
  end.

(** Every pass that finds a carry lowers the sum by at least 65535, so
    [s / 65535] passes are enough (lemma [end_around_fold_no_carry]). *)
Definition end_around_fold (s : Z) : Z := fold_carries (Z.to_nat (s / 65535)) s.

Definition ones_complement16 (x : Z) : Z := Z.lnot x mod 2 ^ 16.

Definition rfc1071 (bs : bytes) : Z :=
  ones_complement16 (end_around_fold (word_sum bs)).

(** The RFC 1071 checksum of a message: of its serialization with the
    checksum field forced to 0. *)
Definition rfc1071_checksum (self : ICMP_Echo) : result Z :=
  payload <- pack_BBHHHs (value (icmp_type self)) (code self) 0
                         (identifier self) (sequence self) (data self) ;;
  Ok (rfc1071 payload).

(** An echo request with a payload of 131071 bytes [0xFF]: more than an IPv4
    datagram can carry, and a [bytes] object all the same. *)
Definition oversized : ICMP_Echo :=
  mkICMP_Echo ECHO 0 0 0xF8FF 0xFFFF (repeat xff (Z.to_nat 131071)) (PyInt (-1)).

(** ** [__repr__]

    The f-string of [__repr__] formats integers with [str], the enumeration
    member by its qualified name, and the payload with [bytes.hex(' ')]:
    two lowercase hexadecimal digits per byte, single spaces between bytes.
    The replacement fields are evaluated and formatted one after the other,
    from left to right, so the first one that raises decides the exception. *)

(** The decimal digits of an integer, with a minus sign when negative. *)
Definition str_of_int (z : Z) : string :=
  DecimalString.NilZero.string_of_int (Z.to_int z).

(** [str(z)] as an f-string field formats it: the decimal digits, and
    [ValueError] for an integer of more than 4300 digits (the interpreter's
    default [sys.int_max_str_digits]). *)
Definition str_int (z : Z) : result string :=
  if Z.abs z <? 10 ^ 4300 then Ok (str_of_int z) else Raise ValueError.

Definition str_of_type (t : ICMP_Echo_Type) : string :=
  match t with
  | ECHO => "ICMP_Echo_Type.ECHO"
  | REPLY => "ICMP_Echo_Type.REPLY"
  end.

Definition hex_digit (n : Z) : ascii :=
  match n with
  | 0 => "0" | 1 => "1" | 2 => "2" | 3 => "3" | 4 => "4" | 5 => "5" | 6 => "6"
  | 7 => "7" | 8 => "8" | 9 => "9" | 10 => "a" | 11 => "b" | 12 => "c"
  | 13 => "d" | 14 => "e" | _ => "f"
  end%char.

Definition hex_byte (b : byte) : string :=
  String (hex_digit (Z_of_byte b / 16))
         (String (hex_digit (Z_of_byte b mod 16)) EmptyString).

Definition hex_sep (bs : bytes) : string :=
  String.concat " " (map hex_byte bs).

(** The text of the f-string, given the word that stands between the
    parentheses after the checksum. *)
Definition repr_with (verdict : string) (self : ICMP_Echo) : string :=
  String.concat ""
    [ "ICMP_Echo(icmp_type="%string; str_of_type (icmp_type self);
      ", code="%string; str_of_int (code self);
      ", checksum="%string; str_of_int (checksum self);
      " ("%string; verdict;
      "), identifier="%string; str_of_int (identifier self);
      ", sequence="%string; str_of_int (sequence self);
      ", data="%string; hex_sep (data self);
      ")"%string ].

(** [repr(self)]: type, code and checksum are formatted before
    [check_checksum] is called, identifier, sequence and payload after it. *)
Definition repr (self : ICMP_Echo) : result string :=
  let p_type := str_of_type (icmp_type self) in
  p_code <- str_int (code self) ;;
  p_checksum <- str_int (checksum self) ;;
  good <- check_checksum self ;;
  let p_verdict := (if good then "good" else "bad")%string in
  p_identifier <- str_int (identifier self) ;;
  p_sequence <- str_int (sequence self) ;;
  let p_data := hex_sep (data self) in
  Ok (String.concat ""
        [ "ICMP_Echo(icmp_type="%string; p_type;
          ", code="%string; p_code;
          ", checksum="%string; p_checksum;
          " ("%string; p_verdict;
          "), identifier="%string; p_identifier;
          ", sequence="%string; p_sequence;
          ", data="%string; p_data;
          ")"%string ]).

(** * Properties *)

Example default_checksum :
  (m <- construct ECHO 0 1 1 default_data ;; calculate_checksum m) = Ok 0x4D5A.
Proof. vm_compute. reflexivity. Qed.


Lemma Ok_inj {A : Type} (a b : A) : Ok a = Ok b -> a = b.
Proof. intros H. injection H as H. exact H. Qed.

(** ** Bytes and the two-byte big-endian encoding *)

Lemma Z_of_byte_range (b : byte) : 0 <= Z_of_byte b <= 255.
Proof.
  unfold Z_of_byte. pose proof (Byte.to_N_bounded b). lia.
Qed.

Lemma Z_of_byte_of_Z (z : Z) : Z_of_byte (byte_of_Z z) = z mod 256.
Proof.
  unfold Z_of_byte, byte_of_Z.
  pose proof (Z.mod_pos_bound z 256 ltac:(lia)) as Hm.
  pose proof (Byte.to_of_N_option_map (Z.to_N (z mod 256))) as Hopt.
  destruct (Byte.of_N (Z.to_N (z mod 256))) as [b|] eqn:E; simpl in Hopt.
  - destruct (N.leb_spec (Z.to_N (z mod 256)) 255); [|discriminate].
    injection Hopt as ->. lia.
  - destruct (N.leb_spec (Z.to_N (z mod 256)) 255); [discriminate|lia].
Qed.

Lemma Z_of_byte_of_Z_small (z : Z) : 0 <= z <= 255 -> Z_of_byte (byte_of_Z z) = z.
Proof.
  intros H. rewrite Z_of_byte_of_Z. apply Z.mod_small. lia.
Qed.

Lemma byte_of_Z_of_byte (b : byte) : byte_of_Z (Z_of_byte b) = b.
Proof.
  unfold byte_of_Z. pose proof (Z_of_byte_range b) as Hr.
  rewrite Z.mod_small by lia.
  unfold Z_of_byte. rewrite N2Z.id, Byte.of_to_N. reflexivity.
Qed.

Lemma shiftr_8 (v : Z) : Z.shiftr v 8 = v / 256.
Proof. rewrite Z.shiftr_div_pow2 by lia. reflexivity. Qed.

Lemma shiftr_16 (v : Z) : Z.shiftr v 16 = v / 65536.
Proof. rewrite Z.shiftr_div_pow2 by lia. reflexivity. Qed.

Lemma shiftl_8 (v : Z) : Z.shiftl v 8 = v * 256.
Proof. rewrite Z.shiftl_mul_pow2 by lia. reflexivity. Qed.

Lemma land_255 (v : Z) : Z.land v 255 = v mod 256.
Proof. change 255 with (Z.ones 8). rewrite Z.land_ones by lia. reflexivity. Qed.

Lemma land_FFFF (v : Z) : Z.land v 0xFFFF = v mod 65536.
Proof. change 0xFFFF with (Z.ones 16). rewrite Z.land_ones by lia. reflexivity. Qed.

Lemma lnot_land_FFFF (v : Z) : Z.land (Z.lnot v) 0xFFFF = 65535 - v mod 65536.
Proof.
  rewrite land_FFFF. unfold Z.lnot.
  replace (Z.pred (- v)) with (65535 - v + (-1) * 65536) by lia.
  rewrite Z.mod_add by lia.
  rewrite <- (Zminus_mod_idemp_r 65535 v).
  apply Z.mod_small.
  pose proof (Z.mod_pos_bound v 65536 ltac:(lia)). lia.
Qed.

Lemma unpack_H_range (hi lo : byte) : 0 <= unpack_H hi lo <= 65535.
Proof.
  unfold unpack_H. rewrite shiftl_8.
  pose proof (Z_of_byte_range hi). pose proof (Z_of_byte_range lo). lia.
Qed.

Lemma unpack_H_of_Z (v : Z) :
  0 <= v <= 65535 ->
  unpack_H (byte_of_Z (Z.shiftr v 8)) (byte_of_Z (Z.land v 255)) = v.
Proof.
  intros Hv. unfold unpack_H.
  rewrite shiftl_8, shiftr_8, land_255, !Z_of_byte_of_Z.
  rewrite Z.mod_mod by lia.
  rewrite (Z.mod_small (v / 256)).
  - pose proof (Z.div_mod v 256 ltac:(lia)). lia.
  - split; [apply Z.div_pos; lia | apply Z.div_lt_upper_bound; lia].
Qed.

Lemma byte_of_unpack_H (hi lo : byte) :
  byte_of_Z (Z.shiftr (unpack_H hi lo) 8) = hi /\
  byte_of_Z (Z.land (unpack_H hi lo) 255) = lo.
Proof.
  pose proof (Z_of_byte_range hi) as Hh. pose proof (Z_of_byte_range lo) as Hl.
  unfold unpack_H. rewrite shiftl_8, shiftr_8, land_255.
  assert (Hq : (Z_of_byte hi * 256 + Z_of_byte lo) / 256 = Z_of_byte hi).
  { rewrite Z.add_comm, Z.div_add by lia. rewrite Z.div_small by lia. lia. }
  assert (Hr : (Z_of_byte hi * 256 + Z_of_byte lo) mod 256 = Z_of_byte lo).
  { rewrite Z.add_comm, Z.mod_add by lia. apply Z.mod_small. lia. }
  rewrite Hq, Hr, !byte_of_Z_of_byte. split; reflexivity.
Qed.

(** ** [struct.pack] *)

Lemma fields_fit_spec (c ident sq : Z) :
  fields_fit c ident sq = true <->
  0 <= c <= 255 /\ 0 <= ident <= 65535 /\ 0 <= sq <= 65535.
Proof.
  unfold fields_fit. rewrite !andb_true_iff, !Z.leb_le. tauto.
Qed.

Lemma value_fits (t : ICMP_Echo_Type) : (0 <=? value t) && (value t <=? 255) = true.
Proof. destruct t; reflexivity. Qed.

Lemma pack_fit (t : ICMP_Echo_Type) (c ck ident sq : Z) (d : bytes) :
  fields_fit c ident sq = true ->
  0 <= ck <= 65535 ->
  pack_BBHHHs (value t) c ck ident sq d = Ok (layout t c ck ident sq d).
Proof.
  intros Hf Hck. apply fields_fit_spec in Hf. destruct Hf as (Hc & Hi & Hs).
  unfold pack_BBHHHs, pack_B, pack_H. rewrite value_fits.
  repeat match goal with
         | |- context [(0 <=? ?x) && (?x <=? ?k)] =>
             replace ((0 <=? x) && (x <=? k)) with true
               by (symmetry; apply andb_true_iff; rewrite !Z.leb_le; lia)
         end.
  reflexivity.
Qed.

Lemma pack_unfit (t : ICMP_Echo_Type) (c ck ident sq : Z) (d : bytes) :
  fields_fit c ident sq = false ->
  pack_BBHHHs (value t) c ck ident sq d = Raise StructError.
Proof.
  intros Hf. unfold pack_BBHHHs, pack_B, pack_H. rewrite value_fits.
  unfold fields_fit in Hf.
  destruct ((0 <=? c) && (c <=? 255)); simpl in *; [|reflexivity].
  destruct ((0 <=? ck) && (ck <=? 65535)); simpl; [|reflexivity].
  destruct ((0 <=? ident) && (ident <=? 65535)); simpl in *; [|reflexivity].
  destruct ((0 <=? sq) && (sq <=? 65535)); simpl in *; [discriminate|reflexivity].
Qed.


(** ** The summation loop and the words of the specification *)

Section PairInduction.
Variable A : Type.
Variable P : list A -> Prop.
Hypothesis P_nil : P [].
Hypothesis P_one : forall a, P [a].
Hypothesis P_two : forall a b rest, P rest -> P (a :: b :: rest).

Lemma list_pair_ind (l : list A) : P l.
Proof.
  assert (H : P l /\ forall a, P (a :: l)).
  { induction l as [|x l [IH1 IH2]].
    - split; [exact P_nil | exact P_one].
    - split; [apply IH2 | intros a; apply P_two; exact IH1]. }
  exact (proj1 H).
Qed.
End PairInduction.

Lemma pad_even_two (a b : byte) (rest : bytes) :
  pad_even (a :: b :: rest) = a :: b :: pad_even rest.
Proof.
  unfold pad_even. cbn [length].
  rewrite !Nat2Z.inj_succ.
  replace (Z.succ (Z.succ (Z.of_nat (length rest))))
    with (Z.of_nat (length rest) + 1 * 2) by lia.
  rewrite Z.mod_add by lia.
  destruct (Z.of_nat (length rest) mod 2 =? 1); reflexivity.
Qed.

Lemma sum_words_pad_even (bs : bytes) :
  forall s, sum_words s (pad_even bs) = Ok (s + word_sum bs).
Proof.
  induction bs as [|a|a b rest IH] using list_pair_ind; intros s.
  - cbn. f_equal. lia.
  - change (pad_even [a]) with [a; x00]. cbn [sum_words].
    unfold word_sum. cbn [be_words fold_right].
    rewrite shiftl_8. change (Z_of_byte x00) with 0. f_equal. lia.
  - rewrite pad_even_two. cbn [sum_words]. rewrite IH.
    unfold word_sum. cbn [be_words fold_right]. rewrite shiftl_8. f_equal. lia.
Qed.

Lemma word_sum_bounds (bs : bytes) :
  0 <= word_sum bs <= 65535 * ((Z.of_nat (length bs) + 1) / 2).
Proof.
  induction bs as [|a|a b rest IH] using list_pair_ind.
  - cbn. lia.
  - unfold word_sum. cbn [be_words fold_right length].
    change ((Z.of_nat 1 + 1) / 2) with 1.
    pose proof (Z_of_byte_range a). lia.
  - unfold word_sum in *. cbn [be_words fold_right length].
    rewrite !Nat2Z.inj_succ.
    replace (Z.succ (Z.succ (Z.of_nat (length rest))) + 1)
      with (Z.of_nat (length rest) + 1 + 1 * 2) by lia.
    rewrite Z.div_add by lia.
    pose proof (Z_of_byte_range a). pose proof (Z_of_byte_range b). lia.
Qed.

(** ** [calculate_checksum]: outcome, range, frame *)

Lemma calculate_checksum_fit (self : ICMP_Echo) :
  well_formed self = true ->
  calculate_checksum self =
    let s := word_sum (layout (icmp_type self) (code self) 0 (identifier self)
                              (sequence self) (data self)) in
    let s := Z.shiftr s 16 + Z.land s 0xFFFF in
    let s := s + Z.shiftr s 16 in
    Ok (Z.land (Z.lnot s) 0xFFFF).
Proof.
  intros Hwf. unfold calculate_checksum, well_formed in *.
  rewrite pack_fit by (assumption || lia).
  cbn [bind]. rewrite sum_words_pad_even. reflexivity.
Qed.

Lemma calculate_checksum_unfit (self : ICMP_Echo) :
  well_formed self = false ->
  calculate_checksum self = Raise StructError.
Proof.
  intros Hwf. unfold calculate_checksum, well_formed in *.
  rewrite pack_unfit by assumption. reflexivity.
Qed.

Lemma calculate_checksum_range (self : ICMP_Echo) (c : Z) :
  calculate_checksum self = Ok c -> 0 <= c <= 65535.
Proof.
  destruct (well_formed self) eqn:Hwf.
  - rewrite calculate_checksum_fit by assumption. cbv zeta.
    rewrite lnot_land_FFFF.
    match goal with |- context [?x mod 65536] =>
      pose proof (Z.mod_pos_bound x 65536 ltac:(lia)) as Hm;
      generalize dependent (x mod 65536)
    end.
    intros r Hr H. apply Ok_inj in H. lia.
  - rewrite calculate_checksum_unfit by assumption. discriminate.
Qed.

Lemma calculate_checksum_total (self : ICMP_Echo) :
  well_formed self = true -> exists c, calculate_checksum self = Ok c.
Proof.
  intros Hwf. rewrite calculate_checksum_fit by assumption. eexists. reflexivity.
Qed.

Lemma calculate_checksum_frame (self : ICMP_Echo) (ck : Z) :
  calculate_checksum (with_checksum self ck) = calculate_checksum self.
Proof. reflexivity. Qed.

Lemma set_checksum_fit (self : ICMP_Echo) :
  well_formed self = true ->
  exists c, calculate_checksum self = Ok c /\ 0 <= c <= 65535 /\
            set_checksum None self = (Ok tt, with_checksum self c).
Proof.
  intros Hwf. destruct (calculate_checksum_total self Hwf) as [c Hc].
  exists c. split; [exact Hc|]. split; [eapply calculate_checksum_range; eassumption|].
  unfold set_checksum. rewrite Hc. reflexivity.
Qed.

Lemma construct_fit (t : ICMP_Echo_Type) (c ident sq : Z) (d : bytes) :
  fields_fit c ident sq = true ->
  exists ck, calculate_checksum (mkICMP_Echo t c 0 ident sq d (PyInt (-1))) = Ok ck /\
             0 <= ck <= 65535 /\
             construct t c ident sq d = Ok (mkICMP_Echo t c ck ident sq d (PyInt (-1))).
Proof.
  intros Hf. unfold construct.
  destruct (set_checksum_fit (mkICMP_Echo t c 0 ident sq d (PyInt (-1))) Hf)
    as (ck & Hck & Hr & Hset).
  exists ck. rewrite Hset. auto.
Qed.

Lemma construct_unfit (t : ICMP_Echo_Type) (c ident sq : Z) (d : bytes) :
  fields_fit c ident sq = false ->
  construct t c ident sq d = Raise StructError.
Proof.
  intros Hf. unfold construct, set_checksum.
  rewrite calculate_checksum_unfit by exact Hf. reflexivity.
Qed.

Lemma to_bytes_fit (self : ICMP_Echo) :
  well_formed self = true ->
  exists ck, calculate_checksum self = Ok ck /\ 0 <= ck <= 65535 /\
    to_bytes self =
      (Ok (layout (icmp_type self) (code self) ck (identifier self)
                  (sequence self) (data self)),
       with_checksum self ck).
Proof.
  intros Hwf. destruct (set_checksum_fit self Hwf) as (ck & Hck & Hr & Hset).
  exists ck. split; [exact Hck|]. split; [exact Hr|].
  unfold to_bytes. rewrite Hset. cbn [with_checksum icmp_type code checksum identifier sequence data].
  rewrite pack_fit by assumption. reflexivity.
Qed.

(** ** Two folding passes against folding until no carry remains *)

Lemma fold_carries_closed_form (fuel : nat) :
  forall s, 0 <= s -> s / 65535 <= Z.of_nat fuel ->
  fold_carries fuel s = if s =? 0 then 0 else (s - 1) mod 65535 + 1.
Proof.
  induction fuel as [|fuel IH]; intros s Hs Hfuel.
  - cbn [fold_carries]. destruct (Z.eqb_spec s 0) as [->|Hnz]; [reflexivity|].
    assert (s < 65535).
    { destruct (Z_lt_ge_dec s 65535) as [|Hbig]; [assumption|].
      assert (1 <= s / 65535) by (apply Z.div_le_lower_bound; lia).
      cbn in Hfuel. lia. }
    rewrite Z.mod_small by lia. lia.
  - cbn [fold_carries]. change (2 ^ 16) with 65536.
    destruct (Z.ltb_spec s 65536) as [Hlt|Hge].
    + destruct (Z.eqb_spec s 0) as [->|Hnz]; [reflexivity|].
      destruct (Z.eq_dec s 65535) as [->|Hne]; [reflexivity|].
      rewrite Z.mod_small by lia. lia.
    + pose proof (Z.div_mod s 65536 ltac:(lia)) as Hdm.
      pose proof (Z.mod_pos_bound s 65536 ltac:(lia)) as Hr.
      assert (Hq : 1 <= s / 65536) by (apply Z.div_le_lower_bound; lia).
      set (q := s / 65536) in *. set (r := s mod 65536) in *.
      rewrite IH.
      * destruct (Z.eqb_spec (q + r) 0); [lia|].
        destruct (Z.eqb_spec s 0); [lia|].
        replace (s - 1) with (q + r - 1 + q * 65535) by lia.
        rewrite Z.mod_add by lia. reflexivity.
      * lia.
      * rewrite Nat2Z.inj_succ in Hfuel.
        assert (Hle : (q + r) / 65535 + 1 <= s / 65535).
        { replace ((q + r) / 65535 + 1) with ((q + r + 1 * 65535) / 65535)
            by (rewrite Z.div_add by lia; reflexivity).
          apply Z.div_le_mono; lia. }
        lia.
Qed.

Lemma end_around_fold_closed_form (s : Z) :
  0 <= s -> end_around_fold s = if s =? 0 then 0 else (s - 1) mod 65535 + 1.
Proof.
  intros Hs. unfold end_around_fold. apply fold_carries_closed_form; [exact Hs|].
  rewrite Z2Nat.id by (apply Z.div_pos; lia). lia.
Qed.

(** Folding stops: the folded sum has no carry left. *)
Lemma end_around_fold_no_carry (s : Z) :
  0 <= s -> 0 <= end_around_fold s < 2 ^ 16.
Proof.
  intros Hs. rewrite end_around_fold_closed_form by exact Hs.
  change (2 ^ 16) with 65536.
  destruct (s =? 0); [lia|].
  pose proof (Z.mod_pos_bound (s - 1) 65535 ltac:(lia)). lia.
Qed.

(** The two passes of the code are a full fold as long as the first pass
    leaves at most [0x1FFFE]. *)
Lemma two_passes_suffice (s : Z) :
  0 <= s < 2 ^ 32 + 65535 ->
  (let s1 := Z.shiftr s 16 + Z.land s 0xFFFF in
   let s2 := s1 + Z.shiftr s1 16 in
   Z.land (Z.lnot s2) 0xFFFF) = ones_complement16 (end_around_fold s).
Proof.
  intros Hs. cbv zeta. unfold ones_complement16.
  change (2 ^ 16) with 65536. change (2 ^ 32) with 4294967296 in Hs.
  rewrite lnot_land_FFFF, !shiftr_16, land_FFFF.
  rewrite end_around_fold_closed_form by lia.
  pose proof (Z.div_mod s 65536 ltac:(lia)) as Hdm.
  pose proof (Z.mod_pos_bound s 65536 ltac:(lia)) as Hr.
  assert (Hq : 0 <= s / 65536 <= 65536).
  { split; [apply Z.div_pos; lia|].
    assert (s / 65536 < 65537) by (apply Z.div_lt_upper_bound; lia). lia. }
  set (q := s / 65536) in *. set (r := s mod 65536) in *.
  assert (Hs1 : 0 <= q + r <= 131070) by lia.
  assert (Hfold : (q + r + (q + r) / 65536) mod 65536
                  = if s =? 0 then 0 else (s - 1) mod 65535 + 1).
  { destruct (Z.eqb_spec s 0) as [E|Hnz].
    - assert (q = 0 /\ r = 0) as [-> ->] by lia. reflexivity.
    - replace (s - 1) with (q + r - 1 + q * 65535) by lia.
      rewrite Z.mod_add by lia.
      destruct (Z_lt_ge_dec (q + r) 65536) as [Hlo|Hhi].
      + rewrite (Z.div_small (q + r)) by lia.
        destruct (Z.eq_dec (q + r) 65535) as [E|Hne].
        * rewrite E. reflexivity.
        * rewrite !Z.mod_small by lia. lia.
      + assert (E : (q + r) / 65536 = 1).
        { symmetry. apply (Z.div_unique (q + r) 65536 1 (q + r - 65536)); lia. }
        rewrite E.
        replace (q + r + 1) with (q + r - 65535 + 1 * 65536) by lia.
        rewrite Z.mod_add by lia. rewrite Z.mod_small by lia.
        replace (q + r - 1) with (q + r - 65536 + 1 * 65535) by lia.
        rewrite Z.mod_add by lia. rewrite Z.mod_small by lia. lia. }
  rewrite Hfold.
  unfold Z.lnot.
  destruct (Z.eqb_spec s 0) as [E|Hnz]; [reflexivity|].
  pose proof (Z.mod_pos_bound (s - 1) 65535 ltac:(lia)) as Hm.
  set (m := (s - 1) mod 65535) in *.
  replace (Z.pred (- (m + 1))) with (65535 - (m + 1) + (-1) * 65536) by lia.
  rewrite Z.mod_add by lia. rewrite Z.mod_small by lia. reflexivity.
Qed.

(** The word sum of a serialization with the checksum field forced to 0. *)
Lemma word_sum_layout (t : ICMP_Echo_Type) (c ident sq : Z) (d : bytes) :
  fields_fit c ident sq = true ->
  word_sum (layout t c 0 ident sq d) = 256 * value t + c + ident + sq + word_sum d.
Proof.
  intros Hf. apply fields_fit_spec in Hf. destruct Hf as (Hc & Hi & Hs).
  unfold word_sum, layout. cbn [be_words fold_right].
  pose proof (unpack_H_of_Z ident Hi) as Ei. pose proof (unpack_H_of_Z sq Hs) as Es.
  unfold unpack_H in Ei, Es. rewrite shiftl_8 in Ei, Es.
  rewrite (Z_of_byte_of_Z_small c) by assumption.
  rewrite (Z_of_byte_of_Z_small (value t)) by (destruct t; cbn; lia).
  change (Z_of_byte (byte_of_Z (Z.shiftr 0 8))) with 0.
  change (Z_of_byte (byte_of_Z (Z.land 0 255))) with 0.
  lia.
Qed.

Lemma word_sum_small (self : ICMP_Echo) :
  well_formed self = true ->
  Z.of_nat (length (data self)) <= 131070 ->
  0 <= word_sum (layout (icmp_type self) (code self) 0 (identifier self)
                        (sequence self) (data self)) < 2 ^ 32 + 65535.
Proof.
  intros Hwf Hlen. unfold well_formed in Hwf.
  rewrite word_sum_layout by assumption.
  apply fields_fit_spec in Hwf. destruct Hwf as (Hc & Hi & Hs).
  pose proof (word_sum_bounds (data self)) as Hd.
  assert (Hhalf : (Z.of_nat (length (data self)) + 1) / 2 <= 65535).
  { assert ((Z.of_nat (length (data self)) + 1) / 2 < 65536)
      by (apply Z.div_lt_upper_bound; lia).
    lia. }
  assert (Hv : 0 <= value (icmp_type self) <= 8) by (destruct (icmp_type self); cbn; lia).
  change (2 ^ 32) with 4294967296. lia.
Qed.

(** ** [from_bytes] *)

Lemma ICMP_Echo_Type_of_value (t : ICMP_Echo_Type) : ICMP_Echo_Type_of (value t) = Ok t.
Proof. destruct t; reflexivity. Qed.

Lemma ICMP_Echo_Type_of_known (v : Z) :
  ((v =? 8) || (v =? 0) = true -> exists t, ICMP_Echo_Type_of v = Ok t) /\
  ((v =? 8) || (v =? 0) = false -> ICMP_Echo_Type_of v = Raise ValueError).
Proof.
  unfold ICMP_Echo_Type_of.
  destruct (v =? 8); [split; [eauto | discriminate]|].
  destruct (v =? 0); [split; [eauto | discriminate]|].
  split; [discriminate | reflexivity].
Qed.

Lemma from_bytes_short (packet : bytes) :
  (length packet < 8)%nat -> from_bytes packet = Raise StructError.
Proof.
  intros Hlen. unfold from_bytes.
  do 8 (destruct packet as [|? packet]; [reflexivity|]).
  cbn [length] in Hlen. lia.
Qed.

Lemma from_bytes_long (b0 b1 b2 b3 b4 b5 b6 b7 : byte) (rest : bytes) :
  from_bytes (b0 :: b1 :: b2 :: b3 :: b4 :: b5 :: b6 :: b7 :: rest) =
    (t <- ICMP_Echo_Type_of (Z_of_byte b0) ;;
     construct t (Z_of_byte b1) (unpack_H b4 b5) (unpack_H b6 b7) rest).
Proof. reflexivity. Qed.

Lemma unpacked_fields_fit (b1 b4 b5 b6 b7 : byte) :
  fields_fit (Z_of_byte b1) (unpack_H b4 b5) (unpack_H b6 b7) = true.
Proof.
  apply fields_fit_spec.
  pose proof (Z_of_byte_range b1). pose proof (unpack_H_range b4 b5).
  pose proof (unpack_H_range b6 b7). lia.
Qed.

Lemma from_bytes_layout (t : ICMP_Echo_Type) (c ck ident sq : Z) (d : bytes) :
  fields_fit c ident sq = true ->
  from_bytes (layout t c ck ident sq d) = construct t c ident sq d.
Proof.
  intros Hf. pose proof Hf as Hf'. apply fields_fit_spec in Hf'. destruct Hf' as (Hc & Hi & Hs).
  unfold layout. rewrite from_bytes_long.
  rewrite !unpack_H_of_Z by assumption.
  rewrite (Z_of_byte_of_Z_small c) by assumption.
  rewrite Z_of_byte_of_Z_small by (destruct t; cbn; lia).
  rewrite ICMP_Echo_Type_of_value. reflexivity.
Qed.

Lemma construct_checks (t : ICMP_Echo_Type) (c ident sq : Z) (d : bytes) (m : ICMP_Echo) :
  construct t c ident sq d = Ok m -> check_checksum m = Ok true.
Proof.
  intros Hm. destruct (fields_fit c ident sq) eqn:Hf.
  - destruct (construct_fit t c ident sq d Hf) as (ck & Hck & _ & Hcon).
    rewrite Hcon in Hm. apply Ok_inj in Hm. subst m.
    unfold check_checksum.
    change (calculate_checksum (mkICMP_Echo t c ck ident sq d (PyInt (-1))))
      with (calculate_checksum (mkICMP_Echo t c 0 ident sq d (PyInt (-1)))).
    rewrite Hck. cbn [bind checksum]. rewrite Z.eqb_refl. reflexivity.
  - rewrite construct_unfit in Hm by assumption. discriminate.
Qed.

(** The message carried by a buffer whose checksum bytes are [0xDEAD]. *)
Example corrupted_reply_decodes :
  from_bytes [x00; x00; xde; xad; x00; x01; x00; x01]
    = Ok (mkICMP_Echo REPLY 0 0xFFFD 1 1 [] (PyInt (-1))).
Proof. vm_compute. reflexivity. Qed.

(** * The claims of the specification *)

(** C1 (amended). For every message whose payload has at most 131070 bytes,
    [calculate_checksum] is the RFC 1071 checksum: the bitwise NOT, truncated
    to 16 bits, of the end-around-carry-folded sum of the 16-bit big-endian
    words of the message serialized with the checksum field forced to 0, a
    lone last byte being padded with one zero byte.  For every message, the
    computation returns when the fields fit, what it returns is in
    [0, 65535], and the stored checksum has no influence on it. *)
Theorem calculate_checksum_rfc1071 (self : ICMP_Echo) :
  (Z.of_nat (length (data self)) <= 131070 ->
   calculate_checksum self = rfc1071_checksum self) /\
  (well_formed self = true -> exists ck, calculate_checksum self = Ok ck) /\
  (forall ck, calculate_checksum self = Ok ck -> 0 <= ck <= 65535) /\
  (forall stored,
     calculate_checksum (with_checksum self stored) = calculate_checksum self).
Proof.
  split; [|split; [|split]].
  - intros Hlen. destruct (well_formed self) eqn:Hwf.
    + rewrite calculate_checksum_fit by assumption.
      unfold rfc1071_checksum. unfold well_formed in Hwf.
      rewrite pack_fit by (assumption || lia). cbn [bind]. f_equal.
      apply two_passes_suffice. apply word_sum_small; assumption.
    + rewrite calculate_checksum_unfit by assumption.
      unfold rfc1071_checksum. unfold well_formed in Hwf.
      rewrite pack_unfit by assumption. reflexivity.
  - apply calculate_checksum_total.
  - apply calculate_checksum_range.
  - apply calculate_checksum_frame.
Qed.

Lemma calculate_checksum_rfc1071_witness :
  calculate_checksum (mkICMP_Echo ECHO 0 0 1 1 default_data (PyInt (-1)))
    = rfc1071_checksum (mkICMP_Echo ECHO 0 0 1 1 default_data (PyInt (-1))).
Proof.
  apply (proj1 (calculate_checksum_rfc1071
                  (mkICMP_Echo ECHO 0 0 1 1 default_data (PyInt (-1))))).
  simpl. lia.
Defined.

(** C1 as stated fails on [oversized], whose payload has 131071 bytes: the
    word sum is [0x10000FFFF], the two passes of the code leave [0x20000] and
    the code returns [0xFFFF], while folding until no carry remains leaves
    [0x0001], whose complement is [0xFFFE]. *)
Lemma calculate_checksum_not_rfc1071_oversized :
  calculate_checksum oversized = Ok 0xFFFF /\
  rfc1071_checksum oversized = Ok 0xFFFE /\
  calculate_checksum oversized <> rfc1071_checksum oversized.
Proof.
  assert (Hcode : calculate_checksum oversized = Ok 0xFFFF) by (vm_compute; reflexivity).
  assert (Hrfc : rfc1071_checksum oversized = Ok 0xFFFE) by (vm_compute; reflexivity).
  split; [exact Hcode|]. split; [exact Hrfc|].
  rewrite Hcode, Hrfc. discriminate.
Qed.

(** C2. Serialization of a message whose fields fit their wire widths yields
    exactly one type byte, one code byte, the two checksum bytes, the two
    identifier bytes and the two sequence bytes, each pair most significant
    byte first, followed by the payload; its length is 8 plus the payload
    length, whatever the parity of the payload (no pad byte is written). *)
Theorem to_bytes_layout (self : ICMP_Echo) :
  well_formed self = true ->
  exists ck bs self',
    to_bytes self = (Ok bs, self') /\
    calculate_checksum self = Ok ck /\
    bs = [ byte_of_Z (value (icmp_type self)); byte_of_Z (code self);
           byte_of_Z (ck / 256); byte_of_Z (ck mod 256);
           byte_of_Z (identifier self / 256); byte_of_Z (identifier self mod 256);
           byte_of_Z (sequence self / 256); byte_of_Z (sequence self mod 256) ]
         ++ data self /\
    length bs = (8 + length (data self))%nat.
Proof.
  intros Hwf. destruct (to_bytes_fit self Hwf) as (ck & Hck & _ & Hto).
  exists ck. eexists. eexists. split; [exact Hto|]. split; [exact Hck|].
  unfold layout. rewrite !shiftr_8, !land_255. split; reflexivity.
Qed.

Lemma to_bytes_layout_witness :
  exists ck bs self',
    to_bytes (mkICMP_Echo ECHO 0 0 1 1 [x61; x62; x63] (PyInt (-1))) = (Ok bs, self') /\
    calculate_checksum (mkICMP_Echo ECHO 0 0 1 1 [x61; x62; x63] (PyInt (-1))) = Ok ck /\
    bs = [ byte_of_Z 8; byte_of_Z 0; byte_of_Z (ck / 256); byte_of_Z (ck mod 256);
           byte_of_Z (1 / 256); byte_of_Z (1 mod 256);
           byte_of_Z (1 / 256); byte_of_Z (1 mod 256) ] ++ [x61; x62; x63] /\
    length bs = (8 + 3)%nat.
Proof.
  apply (to_bytes_layout (mkICMP_Echo ECHO 0 0 1 1 [x61; x62; x63] (PyInt (-1)))).
  reflexivity.
Defined.

(** C3. Round trip: for a type in {ECHO, REPLY}, a code in [0, 255], an
    identifier and a sequence in [0, 65535] and any payload, the message
    constructed from them serializes, and deserializing the bytes gives a
    message with the same type, code, identifier, sequence and payload. *)
Theorem round_trip (t : ICMP_Echo_Type) (c ident sq : Z) (d : bytes) :
  fields_fit c ident sq = true ->
  exists m bs m' back,
    construct t c ident sq d = Ok m /\
    to_bytes m = (Ok bs, m') /\
    from_bytes bs = Ok back /\
    icmp_type back = t /\ code back = c /\ identifier back = ident /\
    sequence back = sq /\ data back = d.
Proof.
  intros Hf. destruct (construct_fit t c ident sq d Hf) as (ck & Hck & Hr & Hcon).
  destruct (to_bytes_fit (mkICMP_Echo t c ck ident sq d (PyInt (-1))) Hf)
    as (ck' & Hck' & Hr' & Hto).
  cbn [icmp_type code identifier sequence data] in Hto.
  eexists. eexists. eexists. exists (mkICMP_Echo t c ck ident sq d (PyInt (-1))).
  split; [exact Hcon|]. split; [exact Hto|].
  split; [rewrite from_bytes_layout by assumption; exact Hcon|].
  cbn. repeat split; reflexivity.
Qed.

Lemma round_trip_witness :
  exists m bs m' back,
    construct REPLY 255 65535 513 [x00; xff; x61] = Ok m /\
    to_bytes m = (Ok bs, m') /\
    from_bytes bs = Ok back /\
    icmp_type back = REPLY /\ code back = 255 /\ identifier back = 65535 /\
    sequence back = 513 /\ data back = [x00; xff; x61].
Proof.
  apply (round_trip REPLY 255 65535 513 [x00; xff; x61]). reflexivity.
Defined.

(** C4. Deserialization raises exactly when the buffer has fewer than 8
    bytes or its first byte is neither 8 nor 0; what it raises is then one
    of the two exceptions that stand for MalformedPacketError; and it
    returns a message exactly when the buffer has at least 8 bytes and a
    known first byte, whatever the checksum bytes are. *)
Theorem from_bytes_malformed_iff (packet : bytes) :
  ((exists e, from_bytes packet = Raise e) <->
     (length packet < 8)%nat \/ known_type packet = false) /\
  (forall e, from_bytes packet = Raise e -> MalformedPacketError e = true) /\
  ((exists m, from_bytes packet = Ok m) <->
     (8 <= length packet)%nat /\ known_type packet = true).
Proof.
  destruct (Nat.lt_ge_cases (length packet) 8) as [Hshort|Hlong].
  - pose proof (from_bytes_short packet Hshort) as Hr. rewrite Hr.
    split; [|split].
    + split; [auto | eauto].
    + intros e He. injection He as <-. reflexivity.
    + split; [intros [m Hm]; discriminate | intros [H _]; lia].
  - do 8 (destruct packet as [|? packet]; [cbn [length] in Hlong; lia|]).
    rewrite from_bytes_long. cbn [known_type].
    destruct (ICMP_Echo_Type_of_known (Z_of_byte b)) as [Hknown Hunknown].
    destruct ((Z_of_byte b =? 8) || (Z_of_byte b =? 0)).
    + destruct (Hknown eq_refl) as [t Ht]. rewrite Ht. cbn [bind].
      destruct (construct_fit t (Z_of_byte b0) (unpack_H b3 b4) (unpack_H b5 b6) packet
                  (unpacked_fields_fit _ _ _ _ _)) as (ck & _ & _ & Hcon).
      rewrite Hcon. split; [|split].
      * split; [intros [e He]; discriminate | intros [H|H]; [cbn [length] in H; lia | discriminate]].
      * intros e He. discriminate.
      * split; [auto | eauto].
    + rewrite (Hunknown eq_refl). cbn [bind]. split; [|split].
      * split; [auto | eauto].
      * intros e He. injection He as <-. reflexivity.
      * split; [intros [m Hm]; discriminate | intros [_ H]; discriminate].
Qed.

(** C5 (the code departs from it). The claim wants the checksum field of a
    deserialized message to be the checksum bytes of the buffer.  On the
    buffer [00 00 DE AD 00 01 00 01] those bytes are [0xDEAD], and the
    message returned by [from_bytes] stores [0xFFFD], the checksum
    recomputed from the other fields. *)
Theorem from_bytes_discards_received_checksum :
  unpack_H xde xad = 0xDEAD /\
  exists m, from_bytes [x00; x00; xde; xad; x00; x01; x00; x01] = Ok m /\
            checksum m = 0xFFFD /\ checksum m <> unpack_H xde xad.
Proof.
  split; [reflexivity|].
  eexists. split; [apply corrupted_reply_decodes|].
  split; [reflexivity | discriminate].
Qed.

(** C6. For field values that fit, construction returns a message on which
    [check_checksum] is true; and serializing a message with those fields,
    whatever checksum it stored before, leaves it with a stored checksum
    equal to its computed checksum, which is the value written at offsets
    2 and 3 of the bytes produced. *)
Theorem checksum_never_stale
  (t : ICMP_Echo_Type) (c ident sq : Z) (d : bytes) (stale : Z) (rt : number) :
  fields_fit c ident sq = true ->
  (exists m, construct t c ident sq d = Ok m /\ check_checksum m = Ok true) /\
  (exists bs m',
     to_bytes (mkICMP_Echo t c stale ident sq d rt) = (Ok bs, m') /\
     calculate_checksum m' = Ok (checksum m') /\
     check_checksum m' = Ok true /\
     firstn 2 (skipn 2 bs) =
       [byte_of_Z (checksum m' / 256); byte_of_Z (checksum m' mod 256)]).
Proof.
  intros Hf. split.
  - destruct (construct_fit t c ident sq d Hf) as (ck & _ & _ & Hcon).
    eexists. split; [exact Hcon|]. eapply construct_checks. exact Hcon.
  - destruct (to_bytes_fit (mkICMP_Echo t c stale ident sq d rt) Hf)
      as (ck & Hck & _ & Hto).
    eexists. eexists. split; [exact Hto|].
    rewrite calculate_checksum_frame. cbn [with_checksum checksum].
    split; [exact Hck|]. split.
    + unfold check_checksum. rewrite calculate_checksum_frame, Hck.
      cbn [bind with_checksum checksum]. rewrite Z.eqb_refl. reflexivity.
    + unfold layout. cbn [skipn firstn]. rewrite shiftr_8, land_255. reflexivity.
Qed.

Lemma checksum_never_stale_witness :
  (exists m, construct ECHO 0 1 1 default_data = Ok m /\ check_checksum m = Ok true) /\
  (exists bs m',
     to_bytes (mkICMP_Echo ECHO 0 0xBAD 1 1 default_data (PyInt (-1))) = (Ok bs, m') /\
     calculate_checksum m' = Ok (checksum m') /\
     check_checksum m' = Ok true /\
     firstn 2 (skipn 2 bs) =
       [byte_of_Z (checksum m' / 256); byte_of_Z (checksum m' mod 256)]).
Proof.
  apply (checksum_never_stale ECHO 0 1 1 default_data 0xBAD (PyInt (-1))). reflexivity.
Defined.

(** C7. Serialization leaves the type, code, identifier, sequence, payload
    and elapsed-time fields of the message as they were; the only field it
    assigns is the checksum, which becomes the computed checksum (and when
    the computation raises, nothing is assigned). *)
Theorem to_bytes_frame (self : ICMP_Echo) :
  let self' := snd (to_bytes self) in
  icmp_type self' = icmp_type self /\ code self' = code self /\
  identifier self' = identifier self /\ sequence self' = sequence self /\
  data self' = data self /\ response_time self' = response_time self /\
  match calculate_checksum self with
  | Ok ck => checksum self' = ck
  | Raise _ => checksum self' = checksum self
  end.
Proof.
  unfold to_bytes, set_checksum.
  destruct (calculate_checksum self) as [ck|e]; cbn; repeat split; reflexivity.
Qed.

(** C9. An identifier or a sequence number outside [0, 65535] is rejected:
    construction raises [struct.error], so no message with such a field
    exists to be serialized. *)
Theorem construct_rejects_wide_fields
  (t : ICMP_Echo_Type) (c ident sq : Z) (d : bytes) :
  ~ 0 <= ident <= 65535 \/ ~ 0 <= sq <= 65535 ->
  construct t c ident sq d = Raise StructError.
Proof.
  intros Hout. apply construct_unfit.
  destruct (fields_fit c ident sq) eqn:Hf; [|reflexivity].
  apply fields_fit_spec in Hf. lia.
Qed.

Lemma construct_rejects_wide_fields_witness :
  construct ECHO 0 65536 (-1) default_data = Raise StructError.
Proof.
  apply (construct_rejects_wide_fields ECHO 0 65536 (-1) default_data).
  left. lia.
Defined.

(** C10. Every message returned by [from_bytes] passes [check_checksum],
    and the checksum bytes of the buffer (offsets 2 and 3) have no influence
    on the message returned. *)
Theorem from_bytes_always_checks (packet : bytes) (m : ICMP_Echo) :
  from_bytes packet = Ok m ->
  check_checksum m = Ok true /\
  forall b0 b1 c2 c3 rest x y,
    packet = b0 :: b1 :: c2 :: c3 :: rest ->
    from_bytes (b0 :: b1 :: x :: y :: rest) = Ok m.
Proof.
  intros Hm. split.
  - destruct (Nat.lt_ge_cases (length packet) 8) as [Hshort|Hlong].
    + rewrite from_bytes_short in Hm by assumption. discriminate.
    + do 8 (destruct packet as [|? packet]; [cbn [length] in Hlong; lia|]).
      rewrite from_bytes_long in Hm.
      destruct (ICMP_Echo_Type_of (Z_of_byte b)) as [t|e]; [|discriminate].
      cbn [bind] in Hm. eapply construct_checks. exact Hm.
  - intros b0 b1 c2 c3 rest x y ->.
    destruct rest as [|b4 [|b5 [|b6 [|b7 rest]]]]; try discriminate Hm.
    rewrite from_bytes_long in *. exact Hm.
Qed.

Lemma from_bytes_always_checks_witness :
  check_checksum (mkICMP_Echo REPLY 0 0xFFFD 1 1 [] (PyInt (-1))) = Ok true /\
  forall b0 b1 c2 c3 rest x y,
    [x00; x00; xde; xad; x00; x01; x00; x01] = b0 :: b1 :: c2 :: c3 :: rest ->
    from_bytes (b0 :: b1 :: x :: y :: rest)
      = Ok (mkICMP_Echo REPLY 0 0xFFFD 1 1 [] (PyInt (-1))).
Proof.
  apply (from_bytes_always_checks [x00; x00; xde; xad; x00; x01; x00; x01]).
  vm_compute. reflexivity.
Defined.

(** ** The echo session *)

Lemma default_echo_constructs :
  construct ECHO 0 1 1 default_data
    = Ok (mkICMP_Echo ECHO 0 0x4D5A 1 1 default_data (PyInt (-1))).
Proof. vm_compute. reflexivity. Qed.

Lemma default_echo_to_bytes :
  to_bytes (mkICMP_Echo ECHO 0 0x4D5A 1 1 default_data (PyInt (-1)))
    = (Ok (layout ECHO 0 0x4D5A 1 1 default_data),
       mkICMP_Echo ECHO 0 0x4D5A 1 1 default_data (PyInt (-1))).
Proof. vm_compute. reflexivity. Qed.

(** C8 (the code departs from it). The claim wants the sentinel, and no
    exception, whenever the host does not respond.  [sendto] catches the two
    timeouts of [sock.recv] and nothing else: for a host on whose behalf
    [sock.recv] raises [ConnectionRefusedError], [ping] raises that [OSError];
    and when an ICMP destination-unreachable message arrives in place of a
    reply, [from_bytes] raises [ValueError] out of [ping]. *)
Theorem ping_raises_for_silent_host (target : String.string) :
  fst (ping refusing_host target) = Raise OSError /\
  fst (ping unreachable_host target) = Raise ValueError.
Proof.
  unfold ping. rewrite default_echo_constructs.
  unfold sendto, refusing_host, unreachable_host.
  cbn [icmp_type socket_opens connect_result send_accepts recv_result negb app].
  rewrite default_echo_to_bytes. split; reflexivity.
Qed.

(** X14. Once the raw socket is open: when the name does not resolve, the
    connection fails with an [OSError], or the request is sent and the wait
    for a reply times out, [ping] returns the integer -1 and raises nothing;
    when a datagram arrives and the bytes after its 20-byte IP header
    deserialize, [ping] returns the difference of the two clock readings,
    the first taken just before the [send] call and the second just after
    [recv] returned. *)
Theorem ping_contract (net : network) (target : String.string) :
  socket_opens net = true ->
  (no_response net = true -> fst (ping net target) = Ok (PyInt (-1))) /\
  (forall buf reply,
     connect_result net = ConnectOk ->
     send_accepts net = true ->
     recv_result net = Received buf ->
     from_bytes (skipn 20 buf) = Ok reply ->
     ping net target =
       (Ok (PyFloat (PrimFloat.sub (t2_reading net) (t1_reading net))),
        [ EvSocket; EvSetTimeout 4; EvConnect target 0;
          EvPerfCounter (t1_reading net);
          EvSend (layout ECHO 0 0x4D5A 1 1 default_data);
          EvRecv 65536;
          EvPerfCounter (t2_reading net) ])).
Proof.
  intros Hsock. unfold ping. rewrite default_echo_constructs.
  unfold sendto. cbn [icmp_type]. rewrite Hsock. cbn [negb app].
  rewrite default_echo_to_bytes. split.
  - unfold no_response.
    destruct (connect_result net) as [ | | |e];
      [|reflexivity|reflexivity|intros He; rewrite He; reflexivity].
    destruct (send_accepts net); [|discriminate]. cbn [negb andb].
    destruct (recv_result net); [discriminate|reflexivity|reflexivity|discriminate].
  - intros buf reply Hconn Hsend Hrecv Hreply.
    rewrite Hconn, Hsend, Hrecv, Hreply. reflexivity.
Qed.

Lemma ping_contract_witness :
  fst (ping (mkNetwork true ConnectOk true RecvTimeoutError 1.5%float 5.5%float) "192.0.2.1"%string)
    = Ok (PyInt (-1)) /\
  ping (mkNetwork true ConnectOk true
          (Received (repeat x00 20 ++ layout REPLY 0 0x555A 1 1 default_data))
          1.5%float 1.75%float) "192.0.2.1"%string
    = (Ok (PyFloat 0.25%float),
       [ EvSocket; EvSetTimeout 4; EvConnect "192.0.2.1"%string 0; EvPerfCounter 1.5%float;
         EvSend (layout ECHO 0 0x4D5A 1 1 default_data); EvRecv 65536;
         EvPerfCounter 1.75%float ]).
Proof.
  split.
  - apply (ping_contract (mkNetwork true ConnectOk true RecvTimeoutError 1.5%float 5.5%float)
             "192.0.2.1"%string eq_refl).
    reflexivity.
  - apply (proj2 (ping_contract
                    (mkNetwork true ConnectOk true
                       (Received (repeat x00 20 ++ layout REPLY 0 0x555A 1 1 default_data))
                       1.5%float 1.75%float)
                    "192.0.2.1"%string eq_refl)
             (repeat x00 20 ++ layout REPLY 0 0x555A 1 1 default_data)
             (mkICMP_Echo REPLY 0 0x555A 1 1 default_data (PyInt (-1))));
      reflexivity.
Defined.

(** * Further properties of the packet codec *)

(** X1. [calculate_checksum] raises exactly when the code, the identifier
    or the sequence number does not fit its wire width, and what it raises
    is then [struct.error]: the zero pad keeps [payload[i+1]] in range, so
    the summation loop never raises [IndexError]. *)
Theorem calculate_checksum_raises_iff (self : ICMP_Echo) :
  ((exists e, calculate_checksum self = Raise e) <-> well_formed self = false) /\
  (forall e, calculate_checksum self = Raise e -> e = StructError).
Proof.
  destruct (well_formed self) eqn:Hwf.
  - destruct (calculate_checksum_total self Hwf) as [ck Hck]. rewrite Hck.
    split; [split; [intros [e He]|intros He]; discriminate | intros e He; discriminate].
  - rewrite calculate_checksum_unfit by assumption.
    split; [split; eauto | intros e He; injection He as <-; reflexivity].
Qed.

(** X2. A checksum stored through [set_checksum(override)] never reaches
    the wire: the bytes that [__bytes__] returns afterwards are those it
    returns without the override, and when the fields fit the message is left
    in the same state too.  Until then [check_checksum] compares the override
    with the computed checksum. *)
Theorem override_never_transmitted (self : ICMP_Echo) (v : Z) :
  let overridden := snd (set_checksum (Some v) self) in
  fst (to_bytes overridden) = fst (to_bytes self) /\
  (well_formed self = true -> to_bytes overridden = to_bytes self) /\
  (forall ck, calculate_checksum self = Ok ck ->
              check_checksum overridden = Ok (v =? ck)).
Proof.
  cbn [set_checksum snd]. split; [|split].
  - unfold to_bytes, set_checksum. rewrite calculate_checksum_frame.
    destruct (calculate_checksum self); reflexivity.
  - intros Hwf. destruct (calculate_checksum_total self Hwf) as [ck Hck].
    unfold to_bytes, set_checksum. rewrite calculate_checksum_frame, Hck. reflexivity.
  - intros ck Hck. unfold check_checksum. rewrite calculate_checksum_frame, Hck.
    reflexivity.
Qed.

Lemma override_never_transmitted_witness :
  to_bytes (snd (set_checksum (Some 0xBEEF)
                   (mkICMP_Echo ECHO 0 0x4D5A 1 1 default_data (PyInt (-1)))))
    = to_bytes (mkICMP_Echo ECHO 0 0x4D5A 1 1 default_data (PyInt (-1))).
Proof.
  apply (proj1 (proj2 (override_never_transmitted
                         (mkICMP_Echo ECHO 0 0x4D5A 1 1 default_data (PyInt (-1)))
                         0xBEEF))).
  reflexivity.
Defined.

(** X3. [__bytes__] is idempotent: a second call returns the same bytes as
    the first and leaves the message as the first call left it. *)
Theorem to_bytes_idempotent (self : ICMP_Echo) :
  to_bytes (snd (to_bytes self)) = to_bytes self.
Proof.
  destruct (calculate_checksum self) as [ck|e] eqn:Hck.
  - assert (Hsnd : snd (to_bytes self) = with_checksum self ck)
      by (unfold to_bytes, set_checksum; rewrite Hck; reflexivity).
    rewrite Hsnd. unfold to_bytes, set_checksum.
    rewrite calculate_checksum_frame, Hck. reflexivity.
  - assert (Hsnd : snd (to_bytes self) = self)
      by (unfold to_bytes, set_checksum; rewrite Hck; reflexivity).
    rewrite Hsnd. reflexivity.
Qed.

Lemma byte_of_type (b : byte) (t : ICMP_Echo_Type) :
  ICMP_Echo_Type_of (Z_of_byte b) = Ok t -> byte_of_Z (value t) = b.
Proof.
  unfold ICMP_Echo_Type_of. intros H.
  destruct (Z.eqb_spec (Z_of_byte b) 8) as [E|_].
  - apply Ok_inj in H. subst t. cbn [value]. rewrite <- E. apply byte_of_Z_of_byte.
  - destruct (Z.eqb_spec (Z_of_byte b) 0) as [E|_]; [|discriminate].
    apply Ok_inj in H. subst t. cbn [value]. rewrite <- E. apply byte_of_Z_of_byte.
Qed.

(** X4. Decoding and encoding again normalises the checksum: for a buffer
    that [from_bytes] accepts, [__bytes__] of the message returns the buffer
    with the bytes at offsets 2 and 3 replaced by the computed checksum,
    every other byte unchanged, and does not change the message.  So the
    buffer comes back identical exactly when its checksum bytes were right. *)
Theorem from_bytes_to_bytes (packet : bytes) (m : ICMP_Echo) :
  from_bytes packet = Ok m ->
  exists ck,
    calculate_checksum m = Ok ck /\
    to_bytes m =
      (Ok (firstn 2 packet ++ [byte_of_Z (ck / 256); byte_of_Z (ck mod 256)]
             ++ skipn 4 packet), m) /\
    (fst (to_bytes m) = Ok packet <->
     firstn 2 (skipn 2 packet) = [byte_of_Z (ck / 256); byte_of_Z (ck mod 256)]).
Proof.
  intros Hm.
  destruct (Nat.lt_ge_cases (length packet) 8) as [Hshort|Hlong].
  { rewrite from_bytes_short in Hm by assumption. discriminate. }
  do 8 (destruct packet as [|? packet]; [cbn [length] in Hlong; lia|]).
  rewrite from_bytes_long in Hm.
  destruct (ICMP_Echo_Type_of (Z_of_byte b)) as [t|e] eqn:Ht; [|discriminate].
  cbn [bind] in Hm.
  pose proof (unpacked_fields_fit b0 b3 b4 b5 b6) as Hf.
  destruct (construct_fit t (Z_of_byte b0) (unpack_H b3 b4) (unpack_H b5 b6) packet Hf)
    as (ck & Hck & Hr & Hcon).
  rewrite Hcon in Hm. apply Ok_inj in Hm. subst m.
  exists ck. split; [exact Hck|].
  assert (Hto : to_bytes (mkICMP_Echo t (Z_of_byte b0) ck (unpack_H b3 b4)
                                      (unpack_H b5 b6) packet (PyInt (-1)))
                = (Ok (b :: b0 :: byte_of_Z (ck / 256) :: byte_of_Z (ck mod 256)
                         :: b3 :: b4 :: b5 :: b6 :: packet),
                   mkICMP_Echo t (Z_of_byte b0) ck (unpack_H b3 b4)
                               (unpack_H b5 b6) packet (PyInt (-1)))).
  { destruct (to_bytes_fit (mkICMP_Echo t (Z_of_byte b0) ck (unpack_H b3 b4)
                                        (unpack_H b5 b6) packet (PyInt (-1))) Hf)
      as (ck' & Hck' & _ & Hto).
    change (calculate_checksum
              (mkICMP_Echo t (Z_of_byte b0) ck (unpack_H b3 b4) (unpack_H b5 b6)
                           packet (PyInt (-1))))
      with (calculate_checksum
              (mkICMP_Echo t (Z_of_byte b0) 0 (unpack_H b3 b4) (unpack_H b5 b6)
                           packet (PyInt (-1)))) in Hck'.
    rewrite Hck in Hck'. apply Ok_inj in Hck'. subst ck'.
    rewrite Hto. cbn [icmp_type code identifier sequence data with_checksum].
    unfold layout.
    destruct (byte_of_unpack_H b3 b4) as [E34 E4]. destruct (byte_of_unpack_H b5 b6) as [E56 E6].
    rewrite E34, E4, E56, E6, (byte_of_type b t Ht), byte_of_Z_of_byte.
    rewrite shiftr_8, land_255. reflexivity. }
  split; [exact Hto|].
  rewrite Hto. cbn [fst firstn skipn].
  split.
  - intros H. apply Ok_inj in H. injection H as H2 H3. rewrite H2, H3. reflexivity.
  - intros H. injection H as H2 H3. rewrite <- H2, <- H3. reflexivity.
Qed.

Lemma from_bytes_to_bytes_witness :
  exists ck,
    calculate_checksum (mkICMP_Echo REPLY 0 0xFFFD 1 1 [] (PyInt (-1))) = Ok ck /\
    to_bytes (mkICMP_Echo REPLY 0 0xFFFD 1 1 [] (PyInt (-1))) =
      (Ok (firstn 2 [x00; x00; xde; xad; x00; x01; x00; x01]
             ++ [byte_of_Z (ck / 256); byte_of_Z (ck mod 256)]
             ++ skipn 4 [x00; x00; xde; xad; x00; x01; x00; x01]),
       mkICMP_Echo REPLY 0 0xFFFD 1 1 [] (PyInt (-1))) /\
    (fst (to_bytes (mkICMP_Echo REPLY 0 0xFFFD 1 1 [] (PyInt (-1))))
       = Ok [x00; x00; xde; xad; x00; x01; x00; x01] <->
     firstn 2 (skipn 2 [x00; x00; xde; xad; x00; x01; x00; x01])
       = [byte_of_Z (ck / 256); byte_of_Z (ck mod 256)]).
Proof.
  apply (from_bytes_to_bytes [x00; x00; xde; xad; x00; x01; x00; x01]).
  vm_compute. reflexivity.
Defined.

(** X5. Encoding and decoding again returns the whole message: for a
    message whose fields fit, [from_bytes] of the bytes of [__bytes__] is the
    message as [__bytes__] left it, checksum included, except that the
    elapsed time is reset to -1. *)
Theorem to_bytes_from_bytes (self : ICMP_Echo) :
  well_formed self = true ->
  exists bs self',
    to_bytes self = (Ok bs, self') /\
    from_bytes bs = Ok (with_response_time self' (PyInt (-1))).
Proof.
  intros Hwf. destruct (to_bytes_fit self Hwf) as (ck & Hck & Hr & Hto).
  eexists. eexists. split; [exact Hto|].
  unfold well_formed in Hwf. rewrite from_bytes_layout by assumption.
  destruct (construct_fit (icmp_type self) (code self) (identifier self)
              (sequence self) (data self) Hwf) as (ck' & Hck' & _ & Hcon).
  change (calculate_checksum
            (mkICMP_Echo (icmp_type self) (code self) 0 (identifier self)
                         (sequence self) (data self) (PyInt (-1))))
    with (calculate_checksum self) in Hck'.
  rewrite Hck in Hck'. apply Ok_inj in Hck'. subst ck'.
  rewrite Hcon. reflexivity.
Qed.

Lemma to_bytes_from_bytes_witness :
  exists bs self',
    to_bytes (mkICMP_Echo REPLY 7 0 258 3 [x61; x62; x63] (PyFloat 0.25%float))
      = (Ok bs, self') /\
    from_bytes bs = Ok (with_response_time self' (PyInt (-1))).
Proof.
  apply (to_bytes_from_bytes
           (mkICMP_Echo REPLY 7 0 258 3 [x61; x62; x63] (PyFloat 0.25%float))).
  reflexivity.
Defined.

(** ** What the checksum detects and what it does not *)

Lemma two_passes_value (s : Z) :
  0 <= s < 2 ^ 32 + 65535 ->
  (let s1 := Z.shiftr s 16 + Z.land s 0xFFFF in
   let s2 := s1 + Z.shiftr s1 16 in
   Z.land (Z.lnot s2) 0xFFFF)
  = 65535 - (if s =? 0 then 0 else (s - 1) mod 65535 + 1).
Proof.
  intros Hs. rewrite two_passes_suffice by exact Hs.
  unfold ones_complement16. change (2 ^ 16) with 65536.
  rewrite <- land_FFFF, lnot_land_FFFF.
  rewrite end_around_fold_closed_form by lia.
  destruct (s =? 0); [reflexivity|].
  pose proof (Z.mod_pos_bound (s - 1) 65535 ltac:(lia)).
  rewrite Z.mod_small by lia. reflexivity.
Qed.

Lemma calculate_checksum_value (self : ICMP_Echo) :
  well_formed self = true ->
  Z.of_nat (length (data self)) <= 131070 ->
  calculate_checksum self =
    Ok (65535 -
        (if word_sum (layout (icmp_type self) (code self) 0 (identifier self)
                             (sequence self) (data self)) =? 0
         then 0
         else (word_sum (layout (icmp_type self) (code self) 0 (identifier self)
                                (sequence self) (data self)) - 1) mod 65535 + 1)).
Proof.
  intros Hwf Hlen. rewrite calculate_checksum_fit by assumption.
  cbv zeta. f_equal. apply two_passes_value. apply word_sum_small; assumption.
Qed.

(** A byte of a buffer weighs 256 or 1 in the word sum, by its position. *)
Lemma word_sum_byte (pre post : bytes) :
  exists k, (k = 1 \/ k = 256) /\
    forall b, word_sum (pre ++ b :: post) = word_sum (pre ++ x00 :: post) + k * Z_of_byte b.
Proof.
  induction pre as [|a|a a' rest IH] using list_pair_ind.
  - exists 256. split; [auto|]. intros b. unfold word_sum. cbn [app].
    destruct post as [|p post]; cbn [be_words fold_right];
      change (Z_of_byte x00) with 0; lia.
  - exists 1. split; [auto|]. intros b. unfold word_sum. cbn [app be_words fold_right].
    change (Z_of_byte x00) with 0. lia.
  - destruct IH as (k & Hk & IH). exists k. split; [exact Hk|]. intros b.
    specialize (IH b). unfold word_sum in *. cbn [app be_words fold_right]. lia.
Qed.

Lemma Z_of_byte_inj (b b' : byte) : Z_of_byte b = Z_of_byte b' -> b = b'.
Proof.
  intros H. rewrite <- (byte_of_Z_of_byte b), <- (byte_of_Z_of_byte b'), H. reflexivity.
Qed.

Lemma folded_sums_differ (s d : Z) :
  0 <= s -> 0 <= s + d -> d <> 0 -> -65535 < d < 65535 ->
  (if s =? 0 then 0 else (s - 1) mod 65535 + 1)
  <> (if s + d =? 0 then 0 else (s + d - 1) mod 65535 + 1).
Proof.
  intros Hs Hsd Hd Hsmall.
  pose proof (Z.div_mod (s - 1) 65535 ltac:(lia)) as E1.
  pose proof (Z.mod_pos_bound (s - 1) 65535 ltac:(lia)) as B1.
  pose proof (Z.div_mod (s + d - 1) 65535 ltac:(lia)) as E2.
  pose proof (Z.mod_pos_bound (s + d - 1) 65535 ltac:(lia)) as B2.
  destruct (Z.eqb_spec s 0); destruct (Z.eqb_spec (s + d) 0); lia.
Qed.

(** X6. A payload corrupted in one byte is detected: when the fields fit
    and the payload has at most 131070 bytes, the message that keeps the
    checksum computed at construction and differs from the constructed
    message in exactly one payload byte fails [check_checksum]. *)
Theorem single_byte_corruption_detected
  (t : ICMP_Echo_Type) (c ident sq : Z) (pre post : bytes) (b b' : byte) (rt : number) :
  fields_fit c ident sq = true ->
  Z.of_nat (length (pre ++ b :: post)) <= 131070 ->
  b <> b' ->
  exists m,
    construct t c ident sq (pre ++ b :: post) = Ok m /\
    check_checksum (mkICMP_Echo t c (checksum m) ident sq (pre ++ b' :: post) rt)
      = Ok false.
Proof.
  intros Hf Hlen Hne.
  destruct (construct_fit t c ident sq (pre ++ b :: post) Hf) as (ck & Hck & _ & Hcon).
  eexists. split; [exact Hcon|]. cbn [checksum].
  assert (Hlen' : Z.of_nat (length (pre ++ b' :: post)) <= 131070).
  { rewrite length_app in *. cbn [length] in *. exact Hlen. }
  rewrite (calculate_checksum_value
             (mkICMP_Echo t c 0 ident sq (pre ++ b :: post) (PyInt (-1))) Hf Hlen) in Hck.
  cbn [icmp_type code identifier sequence data] in Hck. apply Ok_inj in Hck.
  unfold check_checksum.
  rewrite (calculate_checksum_value
             (mkICMP_Echo t c ck ident sq (pre ++ b' :: post) rt) Hf Hlen').
  cbn [icmp_type code identifier sequence data bind checksum]. f_equal.
  apply Z.eqb_neq. rewrite <- Hck.
  rewrite !word_sum_layout by assumption.
  destruct (word_sum_byte pre post) as (k & Hk & Hsum).
  rewrite (Hsum b), (Hsum b').
  pose proof (word_sum_bounds (pre ++ x00 :: post)) as [Hw _].
  pose proof (Z_of_byte_range b) as Hb. pose proof (Z_of_byte_range b') as Hb'.
  assert (Hz : Z_of_byte b <> Z_of_byte b') by (intros E; apply Hne, Z_of_byte_inj, E).
  apply fields_fit_spec in Hf. destruct Hf as (Hc & Hi & Hs).
  assert (Hv : 0 <= value t) by (destruct t; cbn; lia).
  set (base := 256 * value t + c + ident + sq + word_sum (pre ++ x00 :: post)) in *.
  replace (256 * value t + c + ident + sq
           + (word_sum (pre ++ x00 :: post) + k * Z_of_byte b))
    with (base + k * Z_of_byte b) by (unfold base; lia).
  replace (256 * value t + c + ident + sq
           + (word_sum (pre ++ x00 :: post) + k * Z_of_byte b'))
    with (base + k * Z_of_byte b + (k * Z_of_byte b' - k * Z_of_byte b)) by (unfold base; lia).
  intros E.
  refine (folded_sums_differ (base + k * Z_of_byte b)
            (k * Z_of_byte b' - k * Z_of_byte b) _ _ _ _ _);
    destruct Hk as [-> | ->]; lia.
Qed.

Lemma single_byte_corruption_detected_witness :
  exists m,
    construct ECHO 0 1 1 ([x61; x62] ++ x63 :: [x64]) = Ok m /\
    check_checksum (mkICMP_Echo ECHO 0 (checksum m) 1 1 ([x61; x62] ++ x43 :: [x64])
                                (PyInt (-1)))
      = Ok false.
Proof.
  apply (single_byte_corruption_detected ECHO 0 1 1 [x61; x62] [x64] x63 x43 (PyInt (-1))).
  - reflexivity.
  - simpl. lia.
  - discriminate.
Defined.

Lemma fields_fit_swap (c a b : Z) : fields_fit c a b = fields_fit c b a.
Proof.
  unfold fields_fit.
  destruct ((0 <=? c) && (c <=? 255)), ((0 <=? a) && (a <=? 65535)),
    ((0 <=? b) && (b <=? 65535)); reflexivity.
Qed.

(** X7. The checksum does not see the order of the 16-bit words: exchanging
    the identifier and the sequence number of a message leaves
    [calculate_checksum] unchanged (also in what it raises). *)
Theorem checksum_blind_to_swap
  (t : ICMP_Echo_Type) (c ck a b : Z) (d : bytes) (rt : number) :
  calculate_checksum (mkICMP_Echo t c ck a b d rt)
  = calculate_checksum (mkICMP_Echo t c ck b a d rt).
Proof.
  destruct (fields_fit c a b) eqn:Hf.
  - assert (Hf' : fields_fit c b a = true) by (rewrite fields_fit_swap; exact Hf).
    rewrite (calculate_checksum_fit (mkICMP_Echo t c ck a b d rt) Hf).
    rewrite (calculate_checksum_fit (mkICMP_Echo t c ck b a d rt) Hf').
    cbn [icmp_type code identifier sequence data].
    rewrite !word_sum_layout by assumption.
    replace (256 * value t + c + b + a + word_sum d)
      with (256 * value t + c + a + b + word_sum d) by lia.
    reflexivity.
  - assert (Hf' : fields_fit c b a = false) by (rewrite fields_fit_swap; exact Hf).
    rewrite (calculate_checksum_unfit (mkICMP_Echo t c ck a b d rt) Hf).
    rewrite (calculate_checksum_unfit (mkICMP_Echo t c ck b a d rt) Hf').
    reflexivity.
Qed.

Lemma word_sum_odd_pad (d : bytes) :
  Nat.odd (length d) = true -> word_sum (d ++ [x00]) = word_sum d.
Proof.
  induction d as [|a|a a' rest IH] using list_pair_ind; intros Hodd.
  - discriminate.
  - unfold word_sum. cbn [app be_words fold_right]. change (Z_of_byte x00) with 0. lia.
  - change (Nat.odd (length (a :: a' :: rest))) with (Nat.odd (length rest)) in Hodd.
    specialize (IH Hodd). unfold word_sum in *. cbn [app be_words fold_right]. lia.
Qed.

(** X8. The zero pad is indistinguishable from a real zero byte: a message
    with a payload of odd length and the message whose payload has one more
    byte, [0x00], at the end have the same checksum. *)
Theorem trailing_zero_invisible
  (t : ICMP_Echo_Type) (c ck ident sq : Z) (d : bytes) (rt : number) :
  Nat.odd (length d) = true ->
  calculate_checksum (mkICMP_Echo t c ck ident sq (d ++ [x00]) rt)
  = calculate_checksum (mkICMP_Echo t c ck ident sq d rt).
Proof.
  intros Hodd. destruct (fields_fit c ident sq) eqn:Hf.
  - rewrite (calculate_checksum_fit (mkICMP_Echo t c ck ident sq (d ++ [x00]) rt) Hf).
    rewrite (calculate_checksum_fit (mkICMP_Echo t c ck ident sq d rt) Hf).
    cbn [icmp_type code identifier sequence data].
    rewrite !word_sum_layout by assumption.
    rewrite word_sum_odd_pad by exact Hodd. reflexivity.
  - rewrite (calculate_checksum_unfit (mkICMP_Echo t c ck ident sq (d ++ [x00]) rt) Hf).
    rewrite (calculate_checksum_unfit (mkICMP_Echo t c ck ident sq d rt) Hf).
    reflexivity.
Qed.

Lemma trailing_zero_invisible_witness :
  calculate_checksum (mkICMP_Echo ECHO 0 0 1 1 ([x61; x62; x63] ++ [x00]) (PyInt (-1)))
  = calculate_checksum (mkICMP_Echo ECHO 0 0 1 1 [x61; x62; x63] (PyInt (-1))).
Proof.
  apply (trailing_zero_invisible ECHO 0 0 1 1 [x61; x62; x63] (PyInt (-1))).
  reflexivity.
Defined.

(** ** [__repr__] *)

Lemma from_bytes_checked (packet : bytes) (m : ICMP_Echo) :
  from_bytes packet = Ok m -> check_checksum m = Ok true.
Proof.
  intros Hm. destruct (Nat.lt_ge_cases (length packet) 8) as [Hshort|Hlong].
  - rewrite from_bytes_short in Hm by assumption. discriminate.
  - do 8 (destruct packet as [|? packet]; [cbn [length] in Hlong; lia|]).
    rewrite from_bytes_long in Hm.
    destruct (ICMP_Echo_Type_of (Z_of_byte b)) as [t|e]; [|discriminate].
    cbn [bind] in Hm. eapply construct_checks. exact Hm.
Qed.

Lemma sixteen_bits_below_limit : 65535 < 10 ^ 4300.
Proof. vm_compute. reflexivity. Qed.

Lemma str_int_below_limit (z : Z) :
  Z.abs z < 10 ^ 4300 -> str_int z = Ok (str_of_int z).
Proof.
  intros Hz. unfold str_int.
  destruct (Z.ltb_spec (Z.abs z) (10 ^ 4300)) as [_|Hge]; [reflexivity|].
  exfalso. apply (Z.lt_irrefl (Z.abs z)). eapply Z.lt_le_trans; eassumption.
Qed.

Lemma str_int_above_limit (z : Z) :
  10 ^ 4300 <= Z.abs z -> str_int z = Raise ValueError.
Proof.
  intros Hz. unfold str_int.
  destruct (Z.ltb_spec (Z.abs z) (10 ^ 4300)) as [Hlt|_]; [|reflexivity].
  exfalso. apply (Z.lt_irrefl (Z.abs z)). eapply Z.lt_le_trans; eassumption.
Qed.

Lemma str_int_16 (z : Z) : 0 <= z <= 65535 -> str_int z = Ok (str_of_int z).
Proof.
  intros [Hlo Hhi]. apply str_int_below_limit.
  rewrite Z.abs_eq by exact Hlo.
  eapply Z.le_lt_trans; [exact Hhi | exact sixteen_bits_below_limit].
Qed.

(** With fields that fit and a 16-bit stored checksum, no conversion fails
    and [check_checksum] alone decides what [__repr__] returns. *)
Lemma repr_fit (self : ICMP_Echo) :
  well_formed self = true ->
  0 <= checksum self <= 65535 ->
  repr self =
    (good <- check_checksum self ;;
     Ok (repr_with (if good then "good" else "bad")%string self)).
Proof.
  intros Hwf Hck. unfold well_formed in Hwf. apply fields_fit_spec in Hwf.
  destruct Hwf as (Hc & Hi & Hs). unfold repr.
  rewrite (str_int_16 (code self)) by lia.
  rewrite (str_int_16 (checksum self)) by lia.
  rewrite (str_int_16 (identifier self)) by lia.
  rewrite (str_int_16 (sequence self)) by lia.
  cbn [bind]. destruct (check_checksum self); reflexivity.
Qed.

Lemma checked_fields (m : ICMP_Echo) :
  check_checksum m = Ok true ->
  well_formed m = true /\ 0 <= checksum m <= 65535.
Proof.
  unfold check_checksum. intros H.
  destruct (calculate_checksum m) as [c|e] eqn:Hc; [|discriminate].
  cbn [bind] in H. apply Ok_inj in H. apply Z.eqb_eq in H.
  split.
  - destruct (well_formed m) eqn:Hwf; [reflexivity|].
    rewrite calculate_checksum_unfit in Hc by assumption. discriminate.
  - rewrite H. eapply calculate_checksum_range. exact Hc.
Qed.

(** X9. The word [__repr__] prints after the checksum: "good" for every
    message that [from_bytes] returns, whatever checksum bytes the buffer
    carried; "bad" after [set_checksum(override)] with a 16-bit override
    that differs from the computed checksum.  When a field does not fit its
    wire width [__repr__] returns no text: it raises [struct.error] if the
    code and the stored checksum have at most 4300 digits, and [ValueError],
    from formatting them before the checksum is computed, if one of the two
    has more. *)
Theorem repr_verdict (self : ICMP_Echo) :
  (forall packet, from_bytes packet = Ok self ->
                  repr self = Ok (repr_with "good" self)) /\
  (forall ck v, calculate_checksum self = Ok ck -> 0 <= v <= 65535 -> v <> ck ->
                repr (snd (set_checksum (Some v) self))
                  = Ok (repr_with "bad" (with_checksum self v))) /\
  (well_formed self = false ->
   Z.abs (code self) < 10 ^ 4300 -> Z.abs (checksum self) < 10 ^ 4300 ->
   repr self = Raise StructError) /\
  (10 ^ 4300 <= Z.abs (code self) \/ 10 ^ 4300 <= Z.abs (checksum self) ->
   repr self = Raise ValueError).
Proof.
  split; [|split; [|split]].
  - intros packet Hm. pose proof (from_bytes_checked packet self Hm) as Hgood.
    destruct (checked_fields self Hgood) as [Hwf Hck].
    rewrite repr_fit by assumption. rewrite Hgood. reflexivity.
  - intros ck v Hck Hv Hne. cbn [set_checksum snd].
    assert (Hwf : well_formed self = true).
    { destruct (well_formed self) eqn:Hwf; [reflexivity|].
      rewrite calculate_checksum_unfit in Hck by assumption. discriminate. }
    rewrite repr_fit by assumption.
    unfold check_checksum. rewrite calculate_checksum_frame, Hck.
    cbn [bind with_checksum checksum].
    destruct (Z.eqb_spec v ck) as [E|_]; [contradiction|]. reflexivity.
  - intros Hwf Hcode Hck. unfold repr, check_checksum.
    rewrite (str_int_below_limit _ Hcode), (str_int_below_limit _ Hck).
    rewrite calculate_checksum_unfit by assumption. reflexivity.
  - intros Hbig. unfold repr.
    destruct (Z_lt_le_dec (Z.abs (code self)) (10 ^ 4300)) as [Hcode|Hcode].
    + destruct Hbig as [Hbig|Hbig].
      * exfalso. apply (Z.lt_irrefl (Z.abs (code self))).
        eapply Z.lt_le_trans; eassumption.
      * rewrite (str_int_below_limit _ Hcode), (str_int_above_limit _ Hbig).
        reflexivity.
    + rewrite (str_int_above_limit _ Hcode). reflexivity.
Qed.

Lemma repr_verdict_witness :
  repr (mkICMP_Echo REPLY 0 40691 1 1 [x61; x0a] (PyInt (-1)))
  = Ok (repr_with "good" (mkICMP_Echo REPLY 0 40691 1 1 [x61; x0a] (PyInt (-1)))).
Proof.
  apply (proj1 (repr_verdict (mkICMP_Echo REPLY 0 40691 1 1 [x61; x0a] (PyInt (-1))))
           [x00; x00; xde; xad; x00; x01; x00; x01; x61; x0a]).
  vm_compute. reflexivity.
Defined.

(** * Further properties of the echo session *)

Lemma to_bytes_cases (self : ICMP_Echo) :
  (exists e, calculate_checksum self = Raise e /\ to_bytes self = (Raise e, self)) \/
  (exists ck r, calculate_checksum self = Ok ck /\
                to_bytes self = (r, with_checksum self ck) /\
                (well_formed self = true -> r = Ok (layout (icmp_type self) (code self) ck
                                           (identifier self) (sequence self) (data self)))).
Proof.
  unfold to_bytes, set_checksum.
  destruct (calculate_checksum self) as [ck|e] eqn:Hck.
  - right. eexists. eexists. split; [reflexivity|]. split; [reflexivity|].
    intros Hwf. cbn [with_checksum icmp_type code checksum identifier sequence data].
    apply pack_fit; [exact Hwf|]. eapply calculate_checksum_range. exact Hck.
  - left. eauto.
Qed.

(** X10. [sendto] assigns at most the checksum of the request: in every
    outcome the request is left either untouched or with its checksum
    recomputed, and its elapsed time is never assigned (the measured time
    goes to the reply object only). *)
Theorem sendto_frame (net : network) (self : ICMP_Echo) (dest : string) :
  let self' := snd (fst (sendto net self dest)) in
  (self' = self \/
   exists ck, calculate_checksum self = Ok ck /\ self' = with_checksum self ck) /\
  response_time self' = response_time self.
Proof.
  cbv zeta.
  assert (H : snd (fst (sendto net self dest)) = self \/
              exists ck, calculate_checksum self = Ok ck /\
                         snd (fst (sendto net self dest)) = with_checksum self ck).
  { unfold sendto.
    destruct (socket_opens net); cbn [negb]; [|left; reflexivity].
    destruct (connect_result net) as [ | | |e0];
      [|left; reflexivity|left; reflexivity
       |destruct (is_OSError e0); left; reflexivity].
    destruct (to_bytes_cases self) as [(e & He & Hto)|(ck & r & Hck & Hto & _)];
      rewrite Hto.
    - left. reflexivity.
    - right. exists ck. split; [exact Hck|].
      destruct r as [bs|e]; [|reflexivity].
      destruct (send_accepts net); cbn [negb]; [|reflexivity].
      destruct (recv_result net) as [buf| | |e0];
        [|reflexivity|reflexivity|reflexivity].
      destruct (from_bytes (skipn 20 buf)); reflexivity. }
  split; [exact H|].
  destruct H as [->|(ck & _ & ->)]; reflexivity.
Qed.


Lemma from_bytes_raise_iff (packet : bytes) (e : exn) :
  from_bytes packet = Raise e <->
  ((length packet < 8)%nat /\ e = StructError) \/
  ((8 <= length packet)%nat /\ known_type packet = false /\ e = ValueError).
Proof.
  destruct (Nat.lt_ge_cases (length packet) 8) as [Hshort|Hlong].
  - rewrite from_bytes_short by assumption. split.
    + intros H. injection H as <-. left. auto.
    + intros [[_ ->]|[H _]]; [reflexivity|lia].
  - assert (Hlong' := Hlong).
    do 8 (destruct packet as [|? packet]; [cbn [length] in Hlong; lia|]).
    rewrite from_bytes_long. cbn [known_type].
    destruct (ICMP_Echo_Type_of_known (Z_of_byte b)) as [Hknown Hunknown].
    destruct ((Z_of_byte b =? 8) || (Z_of_byte b =? 0)).
    + destruct (Hknown eq_refl) as [t Ht]. rewrite Ht. cbn [bind].
      destruct (construct_fit t (Z_of_byte b0) (unpack_H b3 b4) (unpack_H b5 b6) packet
                  (unpacked_fields_fit _ _ _ _ _)) as (ck & _ & _ & Hcon).
      rewrite Hcon. split; [discriminate|].
      intros [[H _]|(_ & H & _)]; [lia|discriminate].
    + rewrite (Hunknown eq_refl). cbn [bind]. split.
      * intros H. injection H as <-. right. auto.
      * intros [[H _]|(_ & _ & ->)]; [lia|reflexivity].
Qed.

(** X12. [ping] raises in exactly these cases: the raw socket cannot be
    opened ([OSError]); [sock.connect] raises an exception that is no
    [OSError] (that exception); the connection succeeded and [send] fails
    ([OSError]); the request was sent and [sock.recv] raises an exception
    that is no timeout (that exception); or a datagram was received and
    either it has fewer than 28 bytes ([struct.error]) or its byte at offset
    20 is neither 8 nor 0 ([ValueError]), as for an ICMP error message sent
    in place of a reply. *)
Theorem ping_raises_iff (net : network) (target : string) (e : exn) :
  fst (ping net target) = Raise e <->
  (socket_opens net = false /\ e = OSError) \/
  (socket_opens net = true /\ connect_result net = ConnectRaises e /\
   is_OSError e = false) \/
  (socket_opens net = true /\ connect_result net = ConnectOk /\
   send_accepts net = false /\ e = OSError) \/
  (socket_opens net = true /\ connect_result net = ConnectOk /\
   send_accepts net = true /\ recv_result net = RecvRaises e) \/
  (socket_opens net = true /\ connect_result net = ConnectOk /\
   send_accepts net = true /\
   exists buf, recv_result net = Received buf /\
     (((length buf < 28)%nat /\ e = StructError) \/
      ((28 <= length buf)%nat /\ known_type (skipn 20 buf) = false /\ e = ValueError))).
Proof.
  unfold ping. rewrite default_echo_constructs.
  unfold sendto. cbn [icmp_type app].
  destruct (socket_opens net); cbn [negb fst].
  2:{ split.
      - intros H. injection H as <-. left. auto.
      - intros [[_ ->]|[(H & _)|[(H & _)|[(H & _)|(H & _)]]]];
          [reflexivity|discriminate..]. }
  destruct (connect_result net) as [ | | |e0]; cbn [fst].
  2,3: (split; [discriminate
               | intros [[H _]|[(_ & H & _)|[(_ & H & _)|[(_ & H & _)|(_ & H & _)]]]];
                 discriminate]).
  2:{ destruct (is_OSError e0) eqn:Hos; cbn [fst].
      - split; [discriminate|].
        intros [[H _]|[(_ & H & Hos')|[(_ & H & _)|[(_ & H & _)|(_ & H & _)]]]];
          try discriminate.
        injection H as ->. rewrite Hos in Hos'. discriminate.
      - split.
        + intros H. injection H as ->. right. left. auto.
        + intros [[H _]|[(_ & H & _)|[(_ & H & _)|[(_ & H & _)|(_ & H & _)]]]];
            try discriminate.
          injection H as ->. reflexivity. }
  rewrite default_echo_to_bytes.
  destruct (send_accepts net); cbn [negb fst].
  2:{ split.
      - intros H. injection H as <-. right. right. left. auto.
      - intros [[H _]|[(_ & H & _)|[(_ & _ & _ & ->)|[(_ & _ & H & _)|(_ & _ & H & _)]]]];
          [discriminate|discriminate|reflexivity|discriminate|discriminate]. }
  destruct (recv_result net) as [buf| | |e0]; cbn [fst].
  2,3: (split; [discriminate
               | intros [[H _]|[(_ & H & _)|[(_ & _ & H & _)
                        |[(_ & _ & _ & H)|(_ & _ & _ & buf & H & _)]]]];
                 discriminate]).
  2:{ split.
      - intros H. injection H as ->. right. right. right. left. auto.
      - intros [[H _]|[(_ & H & _)|[(_ & _ & H & _)
               |[(_ & _ & _ & H)|(_ & _ & _ & buf & H & _)]]]];
          try discriminate.
        injection H as ->. reflexivity. }
  assert (Hlen : forall n, (n = length (skipn 20 buf)) -> (n < 8 <-> length buf < 28)%nat
                           /\ (8 <= n <-> 28 <= length buf)%nat).
  { intros n ->. rewrite length_skipn. lia. }
  destruct (Hlen _ eq_refl) as [Hlt Hge].
  pose proof (from_bytes_raise_iff (skipn 20 buf) e) as Hraise.
  destruct (from_bytes (skipn 20 buf)) as [reply|e'] eqn:Hfrom; cbn [fst].
  - split; [discriminate|].
    intros [[H _]|[(_ & H & _)|[(_ & _ & H & _)
           |[(_ & _ & _ & H)|(_ & _ & _ & buf' & Hbuf & Hcase)]]]];
      try discriminate.
    injection Hbuf as <-. exfalso.
    assert (Hr : Ok reply = Raise e :> result ICMP_Echo).
    { apply Hraise. destruct Hcase as [[H ->]|(H & Hk & ->)];
        [left; split; [apply Hlt; exact H|reflexivity]
        |right; split; [apply Hge; exact H|split; [exact Hk|reflexivity]]]. }
    discriminate Hr.
  - split.
    + intros H. right. right. right. right. repeat split; try reflexivity.
      exists buf. split; [reflexivity|].
      injection H as ->. destruct (proj1 Hraise eq_refl) as [[H ->]|(H & Hk & ->)].
      * left. split; [apply Hlt; exact H|reflexivity].
      * right. split; [apply Hge; exact H|split; [exact Hk|reflexivity]].
    + intros [[H _]|[(_ & H & _)|[(_ & _ & H & _)
             |[(_ & _ & _ & H)|(_ & _ & _ & buf' & Hbuf & Hcase)]]]];
        try discriminate.
      injection Hbuf as <-.
      assert (E : Raise e' = Raise e :> result ICMP_Echo).
      { apply Hraise. destruct Hcase as [[H ->]|(H & Hk & ->)].
        - left. split; [apply Hlt; exact H|reflexivity].
        - right. split; [apply Hge; exact H|split; [exact Hk|reflexivity]]. }
      injection E as ->. reflexivity.
Qed.

(** X13. What [ping] returns is the integer -1 only when the host did not
    respond, and otherwise the float difference of the two clock readings
    taken around a datagram that was received: a measured time is never
    reported as the sentinel. *)
Theorem ping_result_cases (net : network) (target : string) (r : number) :
  fst (ping net target) = Ok r ->
  (r = PyInt (-1) /\ no_response net = true) \/
  (r = PyFloat (PrimFloat.sub (t2_reading net) (t1_reading net)) /\
   no_response net = false /\
   exists buf, recv_result net = Received buf).
Proof.
  unfold ping. rewrite default_echo_constructs.
  unfold sendto, no_response. cbn [icmp_type app].
  destruct (socket_opens net); cbn [negb fst]; [|discriminate].
  destruct (connect_result net) as [ | | |e0]; cbn [fst];
    try (intros H; apply Ok_inj in H; subst r; left; split; reflexivity);
    try (destruct (is_OSError e0); cbn [fst]; [|discriminate];
         intros H; apply Ok_inj in H; subst r; left; split; reflexivity).
  rewrite default_echo_to_bytes.
  destruct (send_accepts net); cbn [negb fst andb]; [|discriminate].
  destruct (recv_result net) as [buf| | |e0]; cbn [fst];
    try (intros H; apply Ok_inj in H; subst r; left; split; reflexivity);
    try discriminate.
  destruct (from_bytes (skipn 20 buf)) as [reply|e]; cbn [fst]; [|discriminate].
  intros H. apply Ok_inj in H. subst r. right.
  split; [reflexivity|]. split; [reflexivity|]. exists buf. reflexivity.
Qed.

Lemma ping_result_cases_witness :
  (PyInt (-1) = PyInt (-1) /\
   no_response (mkNetwork true ConnectGaierror true RecvTimeoutError 0%float 0%float) = true) \/
  (PyInt (-1) = PyFloat (PrimFloat.sub 0%float 0%float) /\
   no_response (mkNetwork true ConnectGaierror true RecvTimeoutError 0%float 0%float) = false /\
   exists buf, RecvTimeoutError = Received buf).
Proof.
  apply (ping_result_cases
           (mkNetwork true ConnectGaierror true RecvTimeoutError 0%float 0%float)
           "host.invalid"%string (PyInt (-1))).
  reflexivity.
Defined.
